(** * terraform-provider-startrail: the service mapping layer

    A shallow embedding of the provider package (diagnostics translation,
    the [startrail_service] resource and data source, provider
    configuration) together with the properties of its specification.

    Go values are modelled as follows.
    - [string] is [string]; an HTTP status code is a [Z].
    - a slice is a [list] (a nil slice and an empty one are both [[]]).
    - a Go map with string keys is a [gmap string _]; ranging over it is
      [map_to_list], whose order is as unspecified as Go's, and no
      statement below depends on it.
    - a pointer that may be nil is an [option].
    - the framework's [types.String], [types.Bool] and [types.Map] keep
      their three states (null, unknown, known).
    - the remote API, the process environment and the keyring are explicit
      state threaded through the calls that touch them. *)

From Stdlib Require Import Ascii String ZArith NArith List Bool.
From stdpp Require Import base decidable option list gmap strings pretty.
Import ListNotations.

Local Open Scope string_scope.
Local Open Scope Z_scope.
Local Open Scope list_scope.

(* ===================================================================== *)
(** ** terraform-plugin-framework: attribute values *)
(* ===================================================================== *)

Module types.

Inductive String : Type :=
| StringNull
| StringUnknown
| StringValue (value : string).

(** [ValueString] is the known value, and the empty string for a null or
    unknown one. *)
Definition ValueString (s : String) : string :=
  match s with
  | StringValue v => v
  | _ => ""
  end.

Definition String_IsNull (s : String) : bool :=
  match s with
  | StringNull => true
  | _ => false
  end.

Inductive Bool : Type :=
| BoolNull
| BoolUnknown
| BoolValue (value : bool).

Definition ValueBool (b : Bool) : bool :=
  match b with
  | BoolValue v => v
  | _ => false
  end.

(** [ValueBoolPointer] is nil for a null value, and a pointer to the
    stored value (false when unknown) otherwise. *)
Definition ValueBoolPointer (b : Bool) : option bool :=
  match b with
  | BoolNull => None
  | BoolUnknown => Some false
  | BoolValue v => Some v
  end.

Inductive Map : Type :=
| MapNull
| MapUnknown
| MapValue (elements : gmap string String).

(** [m.ElementsAs(ctx, &target, true)] into a [map[string]string]: a null
    or unknown map leaves the target empty, and a null or unknown element
    becomes the empty string. *)
Definition ElementsAs (m : Map) : gmap string string :=
  match m with
  | MapValue elements => ValueString <$> elements
  | _ => ∅
  end.

#[global] Instance String_eq_dec : EqDecision String.
Proof. solve_decision. Defined.

#[global] Instance Bool_eq_dec : EqDecision Bool.
Proof. solve_decision. Defined.

#[global] Instance Map_eq_dec : EqDecision Map.
Proof. solve_decision. Defined.

End types.

(* ===================================================================== *)
(** ** terraform-plugin-framework: diagnostics *)
(* ===================================================================== *)

Module diag.

Inductive Severity : Type :=
| SeverityError
| SeverityWarning.

Record Diagnostic : Type := mkDiagnostic {
  severity : Severity;
  summary : string;
  detail : string;
}.

#[global] Instance Severity_eq_dec : EqDecision Severity.
Proof. solve_decision. Defined.

#[global] Instance Diagnostic_eq_dec : EqDecision Diagnostic.
Proof. solve_decision. Defined.

Definition NewErrorDiagnostic (summary detail : string) : Diagnostic :=
  mkDiagnostic SeverityError summary detail.

Definition NewWarningDiagnostic (summary detail : string) : Diagnostic :=
  mkDiagnostic SeverityWarning summary detail.

Definition Diagnostics : Type := list Diagnostic.

Definition Contains (diags : Diagnostics) (d : Diagnostic) : bool :=
  bool_decide (d ∈ diags).

(** [Append] skips a diagnostic that the collection already holds. *)
Fixpoint Append (diags : Diagnostics) (new : list Diagnostic) : Diagnostics :=
  match new with
  | [] => diags
  | d :: rest =>
      if Contains diags d then Append diags rest
      else Append (diags ++ [d]) rest
  end.

Definition AddError (diags : Diagnostics) (summary detail : string) : Diagnostics :=
  Append diags [NewErrorDiagnostic summary detail].

Definition AddWarning (diags : Diagnostics) (summary detail : string) : Diagnostics :=
  Append diags [NewWarningDiagnostic summary detail].

Definition isError (d : Diagnostic) : bool :=
  bool_decide (severity d = SeverityError).

Definition isWarning (d : Diagnostic) : bool :=
  bool_decide (severity d = SeverityWarning).

Definition HasError (diags : Diagnostics) : bool := existsb isError diags.

Definition Errors (diags : Diagnostics) : list Diagnostic := List.filter isError diags.

Definition Warnings (diags : Diagnostics) : list Diagnostic := List.filter isWarning diags.

End diag.

(* ===================================================================== *)
(** ** startrail-go-sdk: the wire types the provider uses *)
(* ===================================================================== *)

Module bindings.

Module Diagnostic.
Record t : Type := mk {
  Severity : string;
  Summary : string;
  Detail : string;
}.
End Diagnostic.

Module Access.
Record t : Type := mk {
  Auth : bool;
  Endpoint : string;
  Internal : bool;
}.
End Access.

Module Logging.
Record t : Type := mk { Labels : gmap string string }.
End Logging.

Module Source.
Record t : Type := mk { Labels : gmap string string }.
End Source.

Module Metadata.
(** [Labels] may be absent (a nil map). *)
Record t : Type := mk { Labels : option (gmap string string) }.
Definition zero : t := mk None.
Definition GetLabels (m : t) : option (gmap string string) := Labels m.
End Metadata.

Module NullableMetadata.
Record t : Type := mk {
  value : option Metadata.t;
  isSet : bool;
}.
(** [bindings.NullableMetadata{}] *)
Definition zero : t := mk None false.
End NullableMetadata.

Module Service.
Record t : Type := mk {
  Name : string;
  Description : string;
  Remarks : string;
  Environment : string;
  Tenant : string;
  Disabled : option bool;
  Access : list Access.t;
  Metadata : NullableMetadata.t;
  Logging : gmap string Logging.t;
  Sources : gmap string Source.t;
}.

Definition zero : t :=
  mk "" "" "" "" "" None [] NullableMetadata.zero ∅ ∅.

Definition GetName (s : t) : string := Name s.
Definition GetDescription (s : t) : string := Description s.
Definition GetRemarks (s : t) : string := Remarks s.
Definition GetEnvironment (s : t) : string := Environment s.
Definition GetTenant (s : t) : string := Tenant s.

Definition GetDisabled (s : t) : bool :=
  match Disabled s with
  | Some b => b
  | None => false
  end.

Definition HasMetadata (s : t) : bool := NullableMetadata.isSet (Metadata s).

Definition GetMetadata (s : t) : Metadata.t :=
  match NullableMetadata.value (Metadata s) with
  | Some m => m
  | None => Metadata.zero
  end.
End Service.

Module ServiceResponse.
Record t : Type := mk {
  Diagnostics : list Diagnostic.t;
  Response : Service.t;
}.

(** The getters accept a nil receiver. *)
Definition GetDiagnostics (r : option t) : list Diagnostic.t :=
  match r with
  | Some r => Diagnostics r
  | None => []
  end.

Definition GetResponse (r : option t) : Service.t :=
  match r with
  | Some r => Response r
  | None => Service.zero
  end.
End ServiceResponse.

End bindings.

(* ===================================================================== *)
(** ** package provider: diagnostics translation *)
(* ===================================================================== *)

Fixpoint handleStartrailDiagnostics
    (diagnostics : list bindings.Diagnostic.t) (diags : diag.Diagnostics)
    : diag.Diagnostics :=
  match diagnostics with
  | [] => diags
  | d :: rest =>
      let sev := bindings.Diagnostic.Severity d in
      let diags :=
        if (sev =? "error")%string || (sev =? "Error")%string then
          diag.AddError diags (bindings.Diagnostic.Summary d) (bindings.Diagnostic.Detail d)
        else if (sev =? "warning")%string || (sev =? "Warning")%string then
          diag.AddWarning diags (bindings.Diagnostic.Summary d) (bindings.Diagnostic.Detail d)
        else diags in
      handleStartrailDiagnostics rest diags
  end.

(* ===================================================================== *)
(** ** package provider: the resource data model *)
(* ===================================================================== *)

Module ServiceResourceModelLogging.
Record t : Type := mk {
  Labels : types.Map;
  Source : types.String;
}.
End ServiceResourceModelLogging.

Module ServiceResourceM0delSource.
Record t : Type := mk {
  Labels : types.Map;
  Source : types.String;
}.
End ServiceResourceM0delSource.

Module ServiceResourceModelMetadata.
Record t : Type := mk { Labels : types.Map }.
End ServiceResourceModelMetadata.

Module ServiceResourceModelAccess.
Record t : Type := mk {
  Auth : types.Bool;
  Endpoint : types.String;
  Internal : types.Bool;
}.
End ServiceResourceModelAccess.

(** ServiceModel describes the resource data model. *)
Module ServiceModel.
Record t : Type := mk {
  Id : types.String;
  Access : list ServiceResourceModelAccess.t;
  Description : types.String;
  Disabled : types.Bool;
  Environment : types.String;
  Logging : list ServiceResourceModelLogging.t;
  Metadata : option ServiceResourceModelMetadata.t;
  Name : types.String;
  Remarks : types.String;
  Sources : list ServiceResourceM0delSource.t;
}.

(** [ServiceModel{}] *)
Definition zero : t :=
  mk types.StringNull [] types.StringNull types.BoolNull types.StringNull
     [] None types.StringNull types.StringNull [].
End ServiceModel.

(* ===================================================================== *)
(** ** The provider client and the remote service API *)
(* ===================================================================== *)

Module APIClient.
(** What [newClient] fixes in the SDK client's configuration. *)
Record t : Type := mk {
  ServerURL : string;
  UserAgent : string;
  Authorization : string;
  Debug : bool;
}.
End APIClient.

Module StartrailProviderClient.
Record t : Type := mk {
  Client : APIClient.t;
  Tenant : string;
  Environment : string;
}.
End StartrailProviderClient.

(** A request to the service API, as the three request builders take it. *)
Inductive Call : Type :=
| ServiceAPI_Get (tenant environment name : string)
| ServiceAPI_Create (service : bindings.Service.t)
| ServiceAPI_Delete (tenant environment name : string).

(** What [clientReq.Execute()] returns: the decoded response (nil when there
    is none), the HTTP response's status code, the text [fmt] prints for
    its body, and the error's text (nil when there is none). *)
Module Execution.
Record t : Type := mk {
  startrailResponse : option bindings.ServiceResponse.t;
  StatusCode : Z;
  Body : string;
  err : option string;
}.
End Execution.

(** The remote side: how it answers a call given the calls made so far, and
    the calls made so far. *)
Module Remote.
Record t : Type := mk {
  respond : list Call -> Call -> Execution.t;
  calls : list Call;
}.

Definition Execute (c : Call) (w : t) : Execution.t * t :=
  (respond w (calls w) c, mk (respond w) (calls w ++ [c])).
End Remote.

Module ServiceResource.
Record t : Type := mk { client : StartrailProviderClient.t }.
End ServiceResource.

Module ServiceDataSource.
Record t : Type := mk { client : StartrailProviderClient.t }.
End ServiceDataSource.

(* ===================================================================== *)
(** ** package provider: the mapping in both directions *)
(* ===================================================================== *)

(** [types.MapValue(types.StringType, l)]: every element built by the
    callers below is a string value, so no diagnostic is produced. *)
Definition types_MapValue (l : gmap string types.String) : types.Map * diag.Diagnostics :=
  (types.MapValue l, []).

(** The labels of a response entry as a framework map (the inner loops of
    [parseServiceResponse]). *)
Definition tfLabels (labels : gmap string string) : types.Map * diag.Diagnostics :=
  let l := types.StringValue <$> labels in
  types_MapValue l.

Definition parseServiceResponse (startrailResponse : option bindings.ServiceResponse.t)
    : ServiceModel.t * diag.Diagnostics :=
  let s := bindings.ServiceResponse.GetResponse startrailResponse in
  let diags : diag.Diagnostics := [] in
  let '(tfLogging, diags) :=
    fold_left (fun '(acc, diags) '(k, v) =>
        let '(labels, d) := tfLabels (bindings.Logging.Labels v) in
        let diags := if diag.HasError d then diag.Append diags d else diags in
        (acc ++ [ServiceResourceModelLogging.mk labels (types.StringValue k)], diags))
      (map_to_list (bindings.Service.Logging s)) ([], diags) in
  let '(tfSources, diags) :=
    fold_left (fun '(acc, diags) '(k, v) =>
        let '(labels, d) := tfLabels (bindings.Source.Labels v) in
        let diags := if diag.HasError d then diag.Append diags d else diags in
        (acc ++ [ServiceResourceM0delSource.mk labels (types.StringValue k)], diags))
      (map_to_list (bindings.Service.Sources s)) ([], diags) in
  let '(tfMetadata, diags) :=
    if bindings.Service.HasMetadata s then
      let m := bindings.Service.GetMetadata s in
      match bindings.Metadata.GetLabels m with
      | Some ls =>
          let '(labels, d) := tfLabels ls in
          let diags := if diag.HasError d then diag.Append diags d else diags in
          (Some (ServiceResourceModelMetadata.mk labels), diags)
      | None => (None, diags)
      end
    else (None, diags) in
  let tfAccess :=
    map (fun a => ServiceResourceModelAccess.mk
                    (types.BoolValue (bindings.Access.Auth a))
                    (types.StringValue (bindings.Access.Endpoint a))
                    (types.BoolValue (bindings.Access.Internal a)))
        (bindings.Service.Access s) in
  let data :=
    {| ServiceModel.Id :=
         types.StringValue (bindings.Service.GetTenant s +:+ "/" +:+
                            bindings.Service.GetEnvironment s +:+ "/" +:+
                            bindings.Service.GetName s);
       ServiceModel.Name := types.StringValue (bindings.Service.GetName s);
       ServiceModel.Description := types.StringValue (bindings.Service.GetDescription s);
       ServiceModel.Remarks := types.StringValue (bindings.Service.GetRemarks s);
       ServiceModel.Environment := types.StringValue (bindings.Service.GetEnvironment s);
       ServiceModel.Disabled := types.BoolValue (bindings.Service.GetDisabled s);
       ServiceModel.Access := tfAccess;
       ServiceModel.Metadata := tfMetadata;
       ServiceModel.Logging := tfLogging;
       ServiceModel.Sources := tfSources |} in
  (data, diags).

(** The environment a request is made for: the resource's own, or the
    provider's when that is empty (the first lines of [post], [Read] and
    [Delete]). *)
Definition resolveEnvironment (client : StartrailProviderClient.t) (data : ServiceModel.t) : string :=
  let environment := types.ValueString (ServiceModel.Environment data) in
  if (environment =? "")%string then StartrailProviderClient.Environment client
  else environment.

(** The [bindings.Service] that [post] builds from the plan, up to the
    point where it hands it to the client. *)
Definition post_service (r : ServiceResource.t) (data : ServiceModel.t) : bindings.Service.t :=
  let environment := resolveEnvironment (ServiceResource.client r) data in
  let tenant := StartrailProviderClient.Tenant (ServiceResource.client r) in
  let metadata := bindings.NullableMetadata.zero in
  let access :=
    fold_left (fun access a =>
        access ++ [bindings.Access.mk
                     (types.ValueBool (ServiceResourceModelAccess.Auth a))
                     (types.ValueString (ServiceResourceModelAccess.Endpoint a))
                     (types.ValueBool (ServiceResourceModelAccess.Internal a))])
      (ServiceModel.Access data) [] in
  let logging :=
    fold_left (fun (logging : gmap string bindings.Logging.t) l =>
        let b := bindings.Logging.mk (types.ElementsAs (ServiceResourceModelLogging.Labels l)) in
        <[types.ValueString (ServiceResourceModelLogging.Source l) := b]> logging)
      (ServiceModel.Logging data) ∅ in
  let sources :=
    fold_left (fun (sources : gmap string bindings.Source.t) s =>
        let b := bindings.Source.mk (types.ElementsAs (ServiceResourceM0delSource.Labels s)) in
        <[types.ValueString (ServiceResourceM0delSource.Source s) := b]> sources)
      (ServiceModel.Sources data) ∅ in
  {| bindings.Service.Name := types.ValueString (ServiceModel.Name data);
     bindings.Service.Description := types.ValueString (ServiceModel.Description data);
     bindings.Service.Remarks := types.ValueString (ServiceModel.Remarks data);
     bindings.Service.Environment := environment;
     bindings.Service.Tenant := tenant;
     bindings.Service.Disabled := types.ValueBoolPointer (ServiceModel.Disabled data);
     bindings.Service.Access := access;
     bindings.Service.Metadata := metadata;
     bindings.Service.Logging := logging;
     bindings.Service.Sources := sources |}.

Definition post (r : ServiceResource.t) (data : ServiceModel.t) (w : Remote.t)
    : ServiceModel.t * diag.Diagnostics * Remote.t :=
  let diags : diag.Diagnostics := [] in
  let service := post_service r data in
  let '(execute, w) := Remote.Execute (ServiceAPI_Create service) w in
  match Execution.err execute with
  | Some err =>
      (ServiceModel.zero,
       diag.AddError diags "Client Error" ("Unable to update service, got error: " +:+ err),
       w)
  | None =>
      let diags :=
        handleStartrailDiagnostics
          (bindings.ServiceResponse.GetDiagnostics (Execution.startrailResponse execute)) diags in
      if diag.HasError diags then (ServiceModel.zero, diags, w)
      else if negb (Execution.StatusCode execute =? 200) then
        (ServiceModel.zero,
         diag.AddError diags "Client Error"
           ("Unable to update service, got errors: " +:+ Execution.Body execute),
         w)
      else
        let '(data, diags) := parseServiceResponse (Execution.startrailResponse execute) in
        (data, diags, w)
  end.

(* ===================================================================== *)
(** ** package provider: the lifecycle methods *)
(* ===================================================================== *)

(** What [req.Plan.Get(ctx, &data)] (or [req.State.Get], [req.Config.Get])
    yields: the decoded model and the diagnostics of decoding. *)
Module Decoded.
Record t : Type := mk {
  data : ServiceModel.t;
  diags : list diag.Diagnostic;
}.
End Decoded.

(** The response a lifecycle method fills in: its diagnostics and the
    Terraform state ([None] is the null state). *)
Module Response.
Record t : Type := mk {
  Diagnostics : diag.Diagnostics;
  State : option ServiceModel.t;
}.

Definition Diagnostics_Append (resp : t) (new : list diag.Diagnostic) : t :=
  mk (diag.Append (Diagnostics resp) new) (State resp).

Definition Diagnostics_AddError (resp : t) (summary detail : string) : t :=
  mk (diag.AddError (Diagnostics resp) summary detail) (State resp).

(** [resp.State.Set(ctx, &data)] stores the whole model. *)
Definition State_Set (resp : t) (data : ServiceModel.t) : t * list diag.Diagnostic :=
  (mk (Diagnostics resp) (Some data), []).
End Response.

Definition Create (r : ServiceResource.t) (req : Decoded.t) (resp : Response.t) (w : Remote.t)
    : Response.t * Remote.t :=
  let data := Decoded.data req in
  let resp := Response.Diagnostics_Append resp (Decoded.diags req) in
  if diag.HasError (Response.Diagnostics resp) then (resp, w)
  else
    let '(data, diags, w) := post r data w in
    let resp := Response.Diagnostics_Append resp diags in
    let '(resp, d) := Response.State_Set resp data in
    (Response.Diagnostics_Append resp d, w).

Definition Read (r : ServiceResource.t) (req : Decoded.t) (resp : Response.t) (w : Remote.t)
    : Response.t * Remote.t :=
  let data := Decoded.data req in
  let resp := Response.Diagnostics_Append resp (Decoded.diags req) in
  if diag.HasError (Response.Diagnostics resp) then (resp, w)
  else
    let client := ServiceResource.client r in
    let environment := resolveEnvironment client data in
    let '(execute, w) :=
      Remote.Execute
        (ServiceAPI_Get (StartrailProviderClient.Tenant client) environment
           (types.ValueString (ServiceModel.Name data))) w in
    match Execution.err execute with
    | Some err =>
        (Response.Diagnostics_AddError resp "Client Error"
           ("Unable to delete service, got error: " +:+ err), w)
    | None =>
        let resp :=
          Response.mk
            (handleStartrailDiagnostics
               (bindings.ServiceResponse.GetDiagnostics (Execution.startrailResponse execute))
               (Response.Diagnostics resp))
            (Response.State resp) in
        if diag.HasError (Response.Diagnostics resp) then (resp, w)
        else if negb (Execution.StatusCode execute =? 200) then
          (Response.Diagnostics_AddError resp "Client Error"
             ("Unable to delete service, got error: " +:+ Execution.Body execute), w)
        else
          let '(data, diags) := parseServiceResponse (Execution.startrailResponse execute) in
          let resp := Response.Diagnostics_Append resp diags in
          let '(resp, d) := Response.State_Set resp data in
          (Response.Diagnostics_Append resp d, w)
    end.

Definition Update (r : ServiceResource.t) (req : Decoded.t) (resp : Response.t) (w : Remote.t)
    : Response.t * Remote.t :=
  let data := Decoded.data req in
  let resp := Response.Diagnostics_Append resp (Decoded.diags req) in
  if diag.HasError (Response.Diagnostics resp) then (resp, w)
  else
    let '(data, diags, w) := post r data w in
    let resp := Response.Diagnostics_Append resp diags in
    if diag.HasError (Response.Diagnostics resp) then (resp, w)
    else
      let '(resp, d) := Response.State_Set resp data in
      (Response.Diagnostics_Append resp d, w).

Definition Delete (r : ServiceResource.t) (req : Decoded.t) (resp : Response.t) (w : Remote.t)
    : Response.t * Remote.t :=
  let data := Decoded.data req in
  let resp := Response.Diagnostics_Append resp (Decoded.diags req) in
  if diag.HasError (Response.Diagnostics resp) then (resp, w)
  else
    let client := ServiceResource.client r in
    let environment := resolveEnvironment client data in
    let '(execute, w) :=
      Remote.Execute
        (ServiceAPI_Delete (StartrailProviderClient.Tenant client) environment
           (types.ValueString (ServiceModel.Name data))) w in
    match Execution.err execute with
    | Some err =>
        (Response.Diagnostics_AddError resp "Client Error"
           ("Unable to delete service, got error: " +:+ err), w)
    | None =>
        let resp :=
          Response.mk
            (handleStartrailDiagnostics
               (bindings.ServiceResponse.GetDiagnostics (Execution.startrailResponse execute))
               (Response.Diagnostics resp))
            (Response.State resp) in
        if diag.HasError (Response.Diagnostics resp) then (resp, w)
        else if negb (Execution.StatusCode execute =? 200) then
          (Response.Diagnostics_AddError resp "Client Error"
             ("Unable to delete service, got error: " +:+ Execution.Body execute), w)
        else (resp, w)
    end.

(** [ServiceDataSource.Read] *)
Definition DataSource_Read (d : ServiceDataSource.t) (req : Decoded.t) (resp : Response.t)
    (w : Remote.t) : Response.t * Remote.t :=
  let data := Decoded.data req in
  let resp := Response.Diagnostics_Append resp (Decoded.diags req) in
  if diag.HasError (Response.Diagnostics resp) then (resp, w)
  else
    let client := ServiceDataSource.client d in
    let environment := resolveEnvironment client data in
    let '(execute, w) :=
      Remote.Execute
        (ServiceAPI_Get (StartrailProviderClient.Tenant client) environment
           (types.ValueString (ServiceModel.Name data))) w in
    match Execution.err execute with
    | Some err =>
        (Response.Diagnostics_AddError resp "Client Error"
           ("Unable to delete service, got error: " +:+ err), w)
    | None =>
        let resp :=
          Response.mk
            (handleStartrailDiagnostics
               (bindings.ServiceResponse.GetDiagnostics (Execution.startrailResponse execute))
               (Response.Diagnostics resp))
            (Response.State resp) in
        if diag.HasError (Response.Diagnostics resp) then (resp, w)
        else if negb (Execution.StatusCode execute =? 200) then
          (Response.Diagnostics_AddError resp "Client Error"
             ("Unable to delete service, got error: " +:+ Execution.Body execute), w)
        else
          let '(data, diags) := parseServiceResponse (Execution.startrailResponse execute) in
          let resp := Response.Diagnostics_Append resp diags in
          let '(resp, d) := Response.State_Set resp data in
          (Response.Diagnostics_Append resp d, w)
    end.

(* ===================================================================== *)
(** ** package provider: provider configuration *)
(* ===================================================================== *)

(** A Go result pair [(value, err)]. *)
Inductive Result (A : Type) : Type :=
| Ok (value : A)
| Err (message : string).
Arguments Ok {A} value.
Arguments Err {A} message.

Module StartrailProvider.
Record t : Type := mk { version : string }.
End StartrailProvider.

(** StartrailProviderModel describes the provider data model. *)
Module StartrailProviderModel.
Record t : Type := mk {
  Endpoint : types.String;
  ApiKey : types.String;
  Debug : types.Bool;
  Environment : types.String;
  Tenant : types.String;
}.
End StartrailProviderModel.

(** The device section of the well-known auth document. *)
Module DeviceAuth.
Record t : Type := mk {
  Enabled : bool;
  ClientId : string;
  AuthorizationUrl : string;
  DeviceCodeUrl : string;
  TokenUrl : string;
  Scopes : list string;
}.
End DeviceAuth.

Module WellKnownExecution.
Record t : Type := mk {
  Device : DeviceAuth.t;
  StatusCode : Z;
  err : option string;
}.
End WellKnownExecution.

Module oauth2.
Module Config.
Record t : Type := mk {
  ClientID : string;
  AuthURL : string;
  DeviceAuthURL : string;
  TokenURL : string;
  Scopes : list string;
}.
End Config.

Module Token.
Record t : Type := mk {
  AccessToken : string;
  RefreshToken : string;
}.
End Token.
End oauth2.

(** What [Configure] does outside the process, in order. *)
Inductive HostEvent : Type :=
| EvWellKnownAuth (client : APIClient.t)
| EvKeyringGet (service user : string)
| EvTokenExchange (config : oauth2.Config.t) (refreshToken : string)
| EvKeyringSet (service user password : string).

(** The machine the provider runs on: the process environment, the URL
    parser, the well-known endpoint, the token endpoint, the keyring and
    the record of what has been done. *)
Module Host.
Record t : Type := mk {
  Getenv : string -> string;
  url_Parse : string -> Result string;
  WellKnownAuth : APIClient.t -> WellKnownExecution.t;
  TokenSource_Token : oauth2.Config.t -> string -> Result oauth2.Token.t;
  keyring : gmap (string * string) string;
  events : list HostEvent;
}.

Definition log (e : HostEvent) (h : t) : t :=
  mk (Getenv h) (url_Parse h) (WellKnownAuth h) (TokenSource_Token h)
     (keyring h) (events h ++ [e]).

Definition keyring_Get (service user : string) (h : t) : Result string * t :=
  (match keyring h !! (service, user) with
   | Some secret => Ok secret
   | None => Err "secret not found in keyring"
   end,
   log (EvKeyringGet service user) h).

Definition keyring_Set (service user password : string) (h : t) : t :=
  log (EvKeyringSet service user password)
    (mk (Getenv h) (url_Parse h) (WellKnownAuth h) (TokenSource_Token h)
        (<[(service, user) := password]> (keyring h)) (events h)).
End Host.

Module ProviderDecoded.
Record t : Type := mk {
  data : StartrailProviderModel.t;
  diags : list diag.Diagnostic;
}.
End ProviderDecoded.

Module ConfigureResponse.
Record t : Type := mk {
  Diagnostics : diag.Diagnostics;
  DataSourceData : option StartrailProviderClient.t;
  ResourceData : option StartrailProviderClient.t;
}.

Definition Diagnostics_AddError (resp : t) (summary detail : string) : t :=
  mk (diag.AddError (Diagnostics resp) summary detail)
     (DataSourceData resp) (ResourceData resp).
End ConfigureResponse.

Definition newClient (u : string) (version authorization : string) (debug : bool) : APIClient.t :=
  {| APIClient.ServerURL := u;
     APIClient.UserAgent := "startrail-terraform-provider/" +:+ version;
     APIClient.Authorization := authorization;
     APIClient.Debug := debug |}.

(** The device-flow branch of [Configure]: the authorization header, or the
    response with the error that ended it. *)
Definition deviceFlow (p : StartrailProvider.t) (u : string) (data : StartrailProviderModel.t)
    (resp : ConfigureResponse.t) (h : Host.t) : (ConfigureResponse.t + string) * Host.t :=
  let client := newClient u (StartrailProvider.version p) ""
                  (types.ValueBool (StartrailProviderModel.Debug data)) in
  let exec := Host.WellKnownAuth h client in
  let h := Host.log (EvWellKnownAuth client) h in
  match WellKnownExecution.err exec with
  | Some err =>
      (inl (ConfigureResponse.Diagnostics_AddError resp "Client Error"
              ("Unable to authenticate, got error: " +:+ err)), h)
  | None =>
      if negb (WellKnownExecution.StatusCode exec =? 200) then
        (inl (ConfigureResponse.Diagnostics_AddError resp "Client Error"
                ("Unable to authenticate, got status code: "
                 +:+ pretty (WellKnownExecution.StatusCode exec))), h)
      else
        let device := WellKnownExecution.Device exec in
        if negb (DeviceAuth.Enabled device) then
          (inl (ConfigureResponse.Diagnostics_AddError resp "Client Error"
                  "Device flow is not enabled for the tenant. Please pass an 'api_key' instead"),
           h)
        else
          let config :=
            {| oauth2.Config.ClientID := DeviceAuth.ClientId device;
               oauth2.Config.AuthURL := DeviceAuth.AuthorizationUrl device;
               oauth2.Config.DeviceAuthURL := DeviceAuth.DeviceCodeUrl device;
               oauth2.Config.TokenURL := DeviceAuth.TokenUrl device;
               oauth2.Config.Scopes := DeviceAuth.Scopes device |} in
          let '(got, h) := Host.keyring_Get "startrail" "refresh_token" h in
          match got with
          | Err err =>
              (inl (ConfigureResponse.Diagnostics_AddError resp "Client Error"
                      ("Unable to get refresh token from keyring, got error: " +:+ err)), h)
          | Ok refreshToken =>
              let t := Host.TokenSource_Token h config refreshToken in
              let h := Host.log (EvTokenExchange config refreshToken) h in
              match t with
              | Err err =>
                  (inl (ConfigureResponse.Diagnostics_AddError resp "Client Error"
                          ("Unable to get token from token source, got error: " +:+ err)), h)
              | Ok t =>
                  let h :=
                    if negb (oauth2.Token.RefreshToken t =? "")%string then
                      Host.keyring_Set "startrail" "refresh_token" (oauth2.Token.RefreshToken t) h
                    else h in
                  (inr ("Bearer " +:+ oauth2.Token.AccessToken t), h)
              end
          end
  end.

Definition Configure (p : StartrailProvider.t) (req : ProviderDecoded.t)
    (resp : ConfigureResponse.t) (h : Host.t) : ConfigureResponse.t * Host.t :=
  let data := ProviderDecoded.data req in
  let resp :=
    ConfigureResponse.mk
      (diag.Append (ConfigureResponse.Diagnostics resp) (ProviderDecoded.diags req))
      (ConfigureResponse.DataSourceData resp) (ConfigureResponse.ResourceData resp) in
  if diag.HasError (ConfigureResponse.Diagnostics resp) then (resp, h)
  else
    match Host.url_Parse h (types.ValueString (StartrailProviderModel.Endpoint data)) with
    | Err err =>
        (ConfigureResponse.Diagnostics_AddError resp "Invalid endpoint"
           ("The endpoint is not a valid URL, got error: " +:+ err), h)
    | Ok u =>
        let authorized : (ConfigureResponse.t + string) * Host.t :=
          if (Host.Getenv h "STARTRAIL_TOKEN" =? "")%string
               && (Host.Getenv h "STARTRAIL_API_KEY" =? "")%string
             || types.String_IsNull (StartrailProviderModel.ApiKey data)
          then deviceFlow p u data resp h
          else if negb (Host.Getenv h "STARTRAIL_TOKEN" =? "")%string then
            (inr ("Bearer " +:+ Host.Getenv h "STARTRAIL_TOKEN"), h)
          else if negb (Host.Getenv h "STARTRAIL_API_KEY" =? "")%string then
            (inr ("apiKey " +:+ Host.Getenv h "STARTRAIL_API_KEY"), h)
          else
            (inr ("apiKey " +:+ types.ValueString (StartrailProviderModel.ApiKey data)), h) in
        match authorized with
        | (inl resp, h) => (resp, h)
        | (inr token, h) =>
            let tenant := types.ValueString (StartrailProviderModel.Tenant data) in
            let tenant := if (tenant =? "")%string then "default" else tenant in
            let client := newClient u (StartrailProvider.version p) token
                            (types.ValueBool (StartrailProviderModel.Debug data)) in
            let c :=
              {| StartrailProviderClient.Client := client;
                 StartrailProviderClient.Tenant := tenant;
                 StartrailProviderClient.Environment :=
                   types.ValueString (StartrailProviderModel.Environment data) |} in
            (ConfigureResponse.mk (ConfigureResponse.Diagnostics resp) (Some c) (Some c), h)
        end
    end.

(** [ServiceResource.Configure] and [ServiceDataSource.Configure] keep the
    client the provider handed over. *)
Definition ServiceResource_Configure (providerData : option StartrailProviderClient.t)
    : option ServiceResource.t :=
  ServiceResource.mk <$> providerData.

Definition ServiceDataSource_Configure (providerData : option StartrailProviderClient.t)
    : option ServiceDataSource.t :=
  ServiceDataSource.mk <$> providerData.

(* ===================================================================== *)
(** ** package provider: schema validators and import *)
(* ===================================================================== *)

(** The character class [[a-z0-9-]]. *)
Definition nameClass (c : ascii) : bool :=
  let n := N_of_ascii c in
  ((97 <=? n) && (n <=? 122) || (48 <=? n) && (n <=? 57) || (n =? 45))%N.

Fixpoint allInNameClass (s : string) : bool :=
  match s with
  | EmptyString => true
  | String c rest => nameClass c && allInNameClass rest
  end.

(** [regexp.MustCompile(`^[a-z0-9-]+$`).MatchString(s)], the expression the
    schema gives for [name] and for [environment]: one or more characters,
    all of the class, from the start of the text to its end. *)
Definition nameRegexp_MatchString (s : string) : bool :=
  negb (s =? "")%string && allInNameClass s.

(** [ServiceResource.ImportState]: [resource.ImportStatePassthroughID] with
    the path [id] stores the request's identifier under [id] and leaves
    every other attribute of the state as it is (null in a fresh state). *)
Definition ImportState (ID : string) (resp : Response.t) : Response.t :=
  let state :=
    match Response.State resp with
    | Some m => m
    | None => ServiceModel.zero
    end in
  Response.mk (Response.Diagnostics resp)
    (Some {| ServiceModel.Id := types.StringValue ID;
             ServiceModel.Access := ServiceModel.Access state;
             ServiceModel.Description := ServiceModel.Description state;
             ServiceModel.Disabled := ServiceModel.Disabled state;
             ServiceModel.Environment := ServiceModel.Environment state;
             ServiceModel.Logging := ServiceModel.Logging state;
             ServiceModel.Metadata := ServiceModel.Metadata state;
             ServiceModel.Name := ServiceModel.Name state;
             ServiceModel.Remarks := ServiceModel.Remarks state;
             ServiceModel.Sources := ServiceModel.Sources state |}).

(* ===================================================================== *)
(** * Properties *)
(* ===================================================================== *)

(** ** Diagnostics *)

Section DiagnosticsFacts.

Implicit Types (diags : diag.Diagnostics) (d : diag.Diagnostic).

Lemma Append_app diags (xs ys : list diag.Diagnostic) :
  diag.Append diags (xs ++ ys) = diag.Append (diag.Append diags xs) ys.
Proof.
  revert diags. induction xs as [|x xs IH]; intros diags; simpl; [done|].
  destruct (diag.Contains diags x); apply IH.
Qed.

Lemma Contains_filter (P : diag.Diagnostic -> bool) diags d :
  P d = true ->
  diag.Contains (List.filter P diags) d = diag.Contains diags d.
Proof.
  intros HP. unfold diag.Contains.
  apply bool_decide_ext.
  rewrite !list_elem_of_In, filter_In. tauto.
Qed.

(** Filtering commutes with [Append], although [Append] drops repeats. *)
Lemma filter_Append (P : diag.Diagnostic -> bool) diags (xs : list diag.Diagnostic) :
  List.filter P (diag.Append diags xs)
  = diag.Append (List.filter P diags) (List.filter P xs).
Proof.
  revert diags. induction xs as [|x xs IH]; intros diags; simpl; [done|].
  destruct (P x) eqn:HP; simpl.
  - rewrite (Contains_filter P diags x HP).
    destruct (diag.Contains diags x); rewrite IH; [done|].
    rewrite List.filter_app. simpl. by rewrite HP.
  - destruct (diag.Contains diags x); rewrite IH; [done|].
    rewrite List.filter_app. simpl. rewrite HP. by rewrite app_nil_r.
Qed.

Lemma HasError_Errors diags :
  diag.HasError diags = negb (bool_decide (diag.Errors diags = [])).
Proof.
  unfold diag.HasError, diag.Errors.
  induction diags as [|d diags IH]; simpl; [done|].
  destruct (diag.isError d); simpl; [done|]. exact IH.
Qed.

Lemma HasError_AddError diags summary detail :
  diag.HasError (diag.AddError diags summary detail) = true.
Proof.
  unfold diag.AddError. simpl.
  destruct (diag.Contains diags _) eqn:HC.
  - unfold diag.Contains in HC. apply bool_decide_eq_true in HC.
    unfold diag.HasError. apply existsb_exists.
    eexists. split; [by apply list_elem_of_In|]. done.
  - unfold diag.HasError. rewrite existsb_app. simpl.
    by rewrite orb_true_r.
Qed.

Lemma HasError_Append_l diags (xs : list diag.Diagnostic) :
  diag.HasError diags = true -> diag.HasError (diag.Append diags xs) = true.
Proof.
  revert diags. induction xs as [|x xs IH]; intros diags H; simpl; [done|].
  destruct (diag.Contains diags x); apply IH; [done|].
  unfold diag.HasError in *. rewrite existsb_app, H. done.
Qed.

Lemma handleStartrailDiagnostics_app (xs ys : list bindings.Diagnostic.t) diags :
  handleStartrailDiagnostics (xs ++ ys) diags
  = handleStartrailDiagnostics ys (handleStartrailDiagnostics xs diags).
Proof.
  revert diags. induction xs as [|x xs IH]; intros diags; simpl; [done|].
  apply IH.
Qed.

Lemma HasError_handleStartrailDiagnostics (ds : list bindings.Diagnostic.t) diags :
  diag.HasError diags = true ->
  diag.HasError (handleStartrailDiagnostics ds diags) = true.
Proof.
  revert diags. induction ds as [|x ds IH]; intros diags H; simpl; [done|].
  apply IH.
  destruct (_ || _); [apply HasError_AddError|].
  destruct (_ || _); [|done].
  by apply HasError_Append_l.
Qed.

End DiagnosticsFacts.

(** The loop of [handleStartrailDiagnostics] appends, in order, what each
    item alone is translated to. *)
Lemma handleStartrailDiagnostics_each (ds : list bindings.Diagnostic.t)
    (diags : diag.Diagnostics) :
  handleStartrailDiagnostics ds diags
  = diag.Append diags (concat (map (fun d => handleStartrailDiagnostics [d] []) ds)).
Proof.
  revert diags. induction ds as [|d ds IH]; intros diags; simpl; [done|].
  rewrite IH, Append_app. f_equal.
  destruct (_ || _); [done|].
  destruct (_ || _); done.
Qed.

Lemma severity_test (s a b : string) :
  (s =? a)%string || (s =? b)%string = bool_decide (s = a \/ s = b).
Proof.
  destruct (String.eqb_spec s a) as [->|Ha]; simpl.
  - symmetry. apply bool_decide_eq_true. by left.
  - destruct (String.eqb_spec s b) as [->|Hb].
    + symmetry. apply bool_decide_eq_true. by right.
    + symmetry. apply bool_decide_eq_false. intros [?|?]; congruence.
Qed.

Lemma Errors_each (ds : list bindings.Diagnostic.t) :
  List.filter diag.isError (concat (map (fun d => handleStartrailDiagnostics [d] []) ds))
  = map (fun d => diag.NewErrorDiagnostic (bindings.Diagnostic.Summary d)
                    (bindings.Diagnostic.Detail d))
      (List.filter (fun d => bool_decide (bindings.Diagnostic.Severity d = "error"
                                          \/ bindings.Diagnostic.Severity d = "Error")) ds).
Proof.
  induction ds as [|d ds IH]; [done|].
  cbn [map concat]. rewrite List.filter_app, IH.
  cbn [List.filter handleStartrailDiagnostics]. rewrite !severity_test.
  case_bool_decide as He; simpl; [done|].
  case_bool_decide; done.
Qed.

Lemma Warnings_each (ds : list bindings.Diagnostic.t) :
  List.filter diag.isWarning (concat (map (fun d => handleStartrailDiagnostics [d] []) ds))
  = map (fun d => diag.NewWarningDiagnostic (bindings.Diagnostic.Summary d)
                    (bindings.Diagnostic.Detail d))
      (List.filter (fun d => bool_decide (bindings.Diagnostic.Severity d = "warning"
                                          \/ bindings.Diagnostic.Severity d = "Warning")) ds).
Proof.
  induction ds as [|d ds IH]; [done|].
  cbn [map concat]. rewrite List.filter_app, IH.
  cbn [List.filter handleStartrailDiagnostics]. rewrite !severity_test.
  case_bool_decide as He; simpl.
  - case_bool_decide as Hw; [|done].
    exfalso. destruct He as [He|He], Hw as [Hw|Hw]; rewrite He in Hw; discriminate.
  - case_bool_decide; done.
Qed.

Lemma length_Errors_Warnings (diags : diag.Diagnostics) :
  length diags = (length (diag.Errors diags) + length (diag.Warnings diags))%nat.
Proof.
  unfold diag.Errors, diag.Warnings.
  induction diags as [|[[] s t] diags IH]; simpl; [done| |]; rewrite IH; lia.
Qed.

(** What [post] returns when the client call itself did not fail and the
    translated diagnostics hold an error. *)
Lemma post_remote_error (r : ServiceResource.t) (data : ServiceModel.t) (w : Remote.t) :
  let execute := Remote.respond w (Remote.calls w) (ServiceAPI_Create (post_service r data)) in
  let diags :=
    handleStartrailDiagnostics
      (bindings.ServiceResponse.GetDiagnostics (Execution.startrailResponse execute)) [] in
  Execution.err execute = None ->
  diag.HasError diags = true ->
  (post r data w).1 = (ServiceModel.zero, diags).
Proof.
  intros execute diags Herr Hhas. unfold post, Remote.Execute.
  fold execute. rewrite Herr. fold diags. by rewrite Hhas.
Qed.

(** C7. A response whose diagnostics hold exactly one item of error
    severity and exactly one of warning severity (and possibly items of
    other severities) is translated into exactly two diagnostics: one
    error and one warning, each with the summary and detail of its item;
    and [post] hands exactly these to its caller. *)
Theorem handleStartrailDiagnostics_one_error_one_warning
    (ds : list bindings.Diagnostic.t) (e w : bindings.Diagnostic.t) :
  List.filter (fun d => bool_decide (bindings.Diagnostic.Severity d = "error"
                                     \/ bindings.Diagnostic.Severity d = "Error")) ds = [e] ->
  List.filter (fun d => bool_decide (bindings.Diagnostic.Severity d = "warning"
                                     \/ bindings.Diagnostic.Severity d = "Warning")) ds = [w] ->
  let diags := handleStartrailDiagnostics ds [] in
  diag.Errors diags
    = [diag.NewErrorDiagnostic (bindings.Diagnostic.Summary e) (bindings.Diagnostic.Detail e)]
  /\ diag.Warnings diags
    = [diag.NewWarningDiagnostic (bindings.Diagnostic.Summary w) (bindings.Diagnostic.Detail w)]
  /\ length diags = 2%nat
  /\ forall (r : ServiceResource.t) (data : ServiceModel.t) (rem : Remote.t),
       let execute :=
         Remote.respond rem (Remote.calls rem) (ServiceAPI_Create (post_service r data)) in
       Execution.err execute = None ->
       bindings.ServiceResponse.GetDiagnostics (Execution.startrailResponse execute) = ds ->
       (post r data rem).1.2 = diags.
Proof.
  intros He Hw diags.
  assert (HE : diag.Errors diags
               = [diag.NewErrorDiagnostic (bindings.Diagnostic.Summary e)
                    (bindings.Diagnostic.Detail e)]).
  { unfold diags, diag.Errors.
    rewrite handleStartrailDiagnostics_each, filter_Append, Errors_each, He.
    done. }
  assert (HW : diag.Warnings diags
               = [diag.NewWarningDiagnostic (bindings.Diagnostic.Summary w)
                    (bindings.Diagnostic.Detail w)]).
  { unfold diags, diag.Warnings.
    rewrite handleStartrailDiagnostics_each, filter_Append, Warnings_each, Hw.
    done. }
  split; [exact HE|]. split; [exact HW|]. split.
  - by rewrite length_Errors_Warnings, HE, HW.
  - intros r data rem execute Herr Hds.
    rewrite post_remote_error.
    + simpl. fold execute. by rewrite Hds.
    + exact Herr.
    + fold execute. rewrite Hds. fold diags.
      by rewrite HasError_Errors, HE.
Qed.

Lemma handleStartrailDiagnostics_one_error_one_warning_witness :
  let e := bindings.Diagnostic.mk "error" "quota exceeded" "the tenant is over quota" in
  let w := bindings.Diagnostic.mk "Warning" "deprecated" "the field is deprecated" in
  diag.Errors (handleStartrailDiagnostics [w; e] [])
    = [diag.NewErrorDiagnostic "quota exceeded" "the tenant is over quota"]
  /\ diag.Warnings (handleStartrailDiagnostics [w; e] [])
    = [diag.NewWarningDiagnostic "deprecated" "the field is deprecated"].
Proof.
  intros e w.
  destruct (handleStartrailDiagnostics_one_error_one_warning [w; e] e w)
    as (HE & HW & _); [reflexivity|reflexivity|].
  split; [exact HE|exact HW].
Defined.

(** C9. Only the four spellings "error", "Error", "warning" and "Warning"
    are recognised: an item of any other severity, wherever it stands in
    the response, is skipped and leaves the caller's diagnostics as they
    would be without it. *)
Theorem handleStartrailDiagnostics_other_severity_dropped
    (d : bindings.Diagnostic.t) (before after : list bindings.Diagnostic.t)
    (diags : diag.Diagnostics) :
  bindings.Diagnostic.Severity d <> "error" ->
  bindings.Diagnostic.Severity d <> "Error" ->
  bindings.Diagnostic.Severity d <> "warning" ->
  bindings.Diagnostic.Severity d <> "Warning" ->
  handleStartrailDiagnostics [d] diags = diags
  /\ handleStartrailDiagnostics (before ++ d :: after) diags
     = handleStartrailDiagnostics (before ++ after) diags.
Proof.
  intros H1 H2 H3 H4.
  assert (Hd : forall ds, handleStartrailDiagnostics [d] ds = ds).
  { intros ds. simpl.
    apply String.eqb_neq in H1, H2, H3, H4.
    by rewrite H1, H2, H3, H4. }
  split; [apply Hd|].
  rewrite !handleStartrailDiagnostics_app.
  change (d :: after) with ([d] ++ after).
  by rewrite handleStartrailDiagnostics_app, Hd.
Qed.

Lemma handleStartrailDiagnostics_other_severity_dropped_witness :
  let shouting := bindings.Diagnostic.mk "ERROR" "quota exceeded" "the tenant is over quota" in
  let w := bindings.Diagnostic.mk "warning" "deprecated" "the field is deprecated" in
  handleStartrailDiagnostics [shouting] [] = []
  /\ handleStartrailDiagnostics ([w] ++ shouting :: [w]) []
     = handleStartrailDiagnostics ([w] ++ [w]) [].
Proof.
  intros shouting w.
  apply (handleStartrailDiagnostics_other_severity_dropped shouting [w] [w] []);
    discriminate.
Defined.

(** ** The list-to-map conversion of [post] *)

Section InsertLoop.

Context {A B : Type} (key : A -> string) (val : A -> B).

(** The loop [for _, x := range xs { m[key x] = val x }] is a left fold
    of inserts. *)
Lemma loop_lookup_other (xs : list A) (m : gmap string B) (k : string) :
  (forall x, x ∈ xs -> key x <> k) ->
  fold_left (fun m x => <[key x := val x]> m) xs m !! k = m !! k.
Proof.
  revert m. induction xs as [|x xs IH]; intros m Hne; [done|].
  simpl. rewrite IH.
  - apply lookup_insert_ne, Hne. by left.
  - intros y Hy. apply Hne. by right.
Qed.

Lemma loop_lookup_last (before after : list A) (x : A) (m : gmap string B) :
  (forall y, y ∈ after -> key y <> key x) ->
  fold_left (fun m x => <[key x := val x]> m) (before ++ x :: after) m !! key x
  = Some (val x).
Proof.
  intros Hne. rewrite fold_left_app. simpl.
  rewrite loop_lookup_other by exact Hne.
  apply lookup_insert_eq.
Qed.

(** A key is left unbound by the loop exactly when no entry bears it and
    the map did not hold it before. *)
Lemma loop_lookup_None (xs : list A) (m : gmap string B) (k : string) :
  fold_left (fun m x => <[key x := val x]> m) xs m !! k = None
  <-> m !! k = None /\ forall x, x ∈ xs -> key x <> k.
Proof.
  revert m. induction xs as [|x xs IH]; intros m.
  - simpl. split; [intros H; split; [done|]|tauto].
    intros x Hx. by apply elem_of_nil in Hx.
  - simpl. rewrite IH. rewrite lookup_insert_None. split.
    + intros [[Hm Hx] Hxs]. split; [done|].
      intros y Hy. apply elem_of_cons in Hy as [->|Hy]; [done|by apply Hxs].
    + intros [Hm Hall]. split; [split; [done|]|].
      * apply Hall. by left.
      * intros y Hy. apply Hall. by right.
Qed.

End InsertLoop.

(** C6. In the Logging and Source conversions of [post], an entry whose
    [source] value no later entry repeats decides what the map holds under
    that key: the map binds the key to that entry's labels, whatever
    earlier entries with the same [source] said. *)
Theorem post_service_last_entry_wins (r : ServiceResource.t) (data : ServiceModel.t) :
  (forall (before after : list ServiceResourceModelLogging.t) (l : ServiceResourceModelLogging.t),
     ServiceModel.Logging data = before ++ l :: after ->
     (forall l', l' ∈ after ->
        types.ValueString (ServiceResourceModelLogging.Source l')
        <> types.ValueString (ServiceResourceModelLogging.Source l)) ->
     bindings.Service.Logging (post_service r data)
       !! types.ValueString (ServiceResourceModelLogging.Source l)
     = Some (bindings.Logging.mk (types.ElementsAs (ServiceResourceModelLogging.Labels l))))
  /\
  (forall (before after : list ServiceResourceM0delSource.t) (s : ServiceResourceM0delSource.t),
     ServiceModel.Sources data = before ++ s :: after ->
     (forall s', s' ∈ after ->
        types.ValueString (ServiceResourceM0delSource.Source s')
        <> types.ValueString (ServiceResourceM0delSource.Source s)) ->
     bindings.Service.Sources (post_service r data)
       !! types.ValueString (ServiceResourceM0delSource.Source s)
     = Some (bindings.Source.mk (types.ElementsAs (ServiceResourceM0delSource.Labels s)))).
Proof.
  split.
  - intros before after l Heq Hne. unfold post_service. simpl. rewrite Heq.
    apply (loop_lookup_last
             (fun l => types.ValueString (ServiceResourceModelLogging.Source l))
             (fun l => bindings.Logging.mk
                         (types.ElementsAs (ServiceResourceModelLogging.Labels l)))).
    exact Hne.
  - intros before after s Heq Hne. unfold post_service. simpl. rewrite Heq.
    apply (loop_lookup_last
             (fun s => types.ValueString (ServiceResourceM0delSource.Source s))
             (fun s => bindings.Source.mk
                         (types.ElementsAs (ServiceResourceM0delSource.Labels s)))).
    exact Hne.
Qed.

Lemma post_service_last_entry_wins_witness :
  let r := ServiceResource.mk
             (StartrailProviderClient.mk (APIClient.mk "http://localhost:8000" "ua" "apiKey k" false)
                "default" "staging") in
  let first := ServiceResourceModelLogging.mk
                 (types.MapValue {["level" := types.StringValue "debug"]})
                 (types.StringValue "app") in
  let other := ServiceResourceModelLogging.mk types.MapNull (types.StringValue "db") in
  let last := ServiceResourceModelLogging.mk
                (types.MapValue {["level" := types.StringValue "info"]})
                (types.StringValue "app") in
  let data := ServiceModel.mk types.StringUnknown [] types.StringNull types.BoolUnknown
                (types.StringValue "prod") [first; other; last] None
                (types.StringValue "hello-world") types.StringNull [] in
  bindings.Service.Logging (post_service r data) !! "app"
  = Some (bindings.Logging.mk {["level" := "info"]}).
Proof.
  intros r first other last data.
  transitivity
    (Some (bindings.Logging.mk (types.ElementsAs (ServiceResourceModelLogging.Labels last)))).
  - apply (proj1 (post_service_last_entry_wins r data) [first; other] [] last).
    + reflexivity.
    + intros l' Hl'. by apply elem_of_nil in Hl'.
  - vm_compute. reflexivity.
Defined.

(** ** The calls a lifecycle method makes *)

Lemma post_calls (r : ServiceResource.t) (data : ServiceModel.t) (w : Remote.t) :
  Remote.calls (post r data w).2
  = Remote.calls w ++ [ServiceAPI_Create (post_service r data)].
Proof.
  unfold post, Remote.Execute.
  destruct (Execution.err _); [done|].
  destruct (diag.HasError _); [done|].
  destruct (negb _); [done|].
  by destruct (parseServiceResponse _).
Qed.

Lemma Create_calls (r : ServiceResource.t) (req : Decoded.t) (resp : Response.t) (w : Remote.t) :
  diag.HasError (diag.Append (Response.Diagnostics resp) (Decoded.diags req)) = false ->
  Remote.calls (Create r req resp w).2
  = Remote.calls w ++ [ServiceAPI_Create (post_service r (Decoded.data req))].
Proof.
  intros Hok. unfold Create. simpl. rewrite Hok.
  pose proof (post_calls r (Decoded.data req) w) as Hp.
  by destruct (post r (Decoded.data req) w) as [[data' diags'] w'].
Qed.

Lemma Update_calls (r : ServiceResource.t) (req : Decoded.t) (resp : Response.t) (w : Remote.t) :
  diag.HasError (diag.Append (Response.Diagnostics resp) (Decoded.diags req)) = false ->
  Remote.calls (Update r req resp w).2
  = Remote.calls w ++ [ServiceAPI_Create (post_service r (Decoded.data req))].
Proof.
  intros Hok. unfold Update. simpl. rewrite Hok.
  pose proof (post_calls r (Decoded.data req) w) as Hp.
  destruct (post r (Decoded.data req) w) as [[data' diags'] w'].
  by destruct (diag.HasError (diag.Append _ diags')).
Qed.

Lemma Read_calls (r : ServiceResource.t) (req : Decoded.t) (resp : Response.t) (w : Remote.t) :
  diag.HasError (diag.Append (Response.Diagnostics resp) (Decoded.diags req)) = false ->
  Remote.calls (Read r req resp w).2
  = Remote.calls w
    ++ [ServiceAPI_Get (StartrailProviderClient.Tenant (ServiceResource.client r))
          (resolveEnvironment (ServiceResource.client r) (Decoded.data req))
          (types.ValueString (ServiceModel.Name (Decoded.data req)))].
Proof.
  intros Hok. unfold Read, Remote.Execute. simpl. rewrite Hok.
  repeat case_match; done.
Qed.

Lemma Delete_calls (r : ServiceResource.t) (req : Decoded.t) (resp : Response.t) (w : Remote.t) :
  diag.HasError (diag.Append (Response.Diagnostics resp) (Decoded.diags req)) = false ->
  Remote.calls (Delete r req resp w).2
  = Remote.calls w
    ++ [ServiceAPI_Delete (StartrailProviderClient.Tenant (ServiceResource.client r))
          (resolveEnvironment (ServiceResource.client r) (Decoded.data req))
          (types.ValueString (ServiceModel.Name (Decoded.data req)))].
Proof.
  intros Hok. unfold Delete, Remote.Execute. simpl. rewrite Hok.
  repeat case_match; done.
Qed.

Lemma DataSource_Read_calls (d : ServiceDataSource.t) (req : Decoded.t) (resp : Response.t)
    (w : Remote.t) :
  diag.HasError (diag.Append (Response.Diagnostics resp) (Decoded.diags req)) = false ->
  Remote.calls (DataSource_Read d req resp w).2
  = Remote.calls w
    ++ [ServiceAPI_Get (StartrailProviderClient.Tenant (ServiceDataSource.client d))
          (resolveEnvironment (ServiceDataSource.client d) (Decoded.data req))
          (types.ValueString (ServiceModel.Name (Decoded.data req)))].
Proof.
  intros Hok. unfold DataSource_Read, Remote.Execute. simpl. rewrite Hok.
  repeat case_match; done.
Qed.

(** If the plan or state could not be decoded, no call is made at all. *)
Lemma no_call_after_decode_error (r : ServiceResource.t) (req : Decoded.t) (resp : Response.t)
    (w : Remote.t) :
  diag.HasError (diag.Append (Response.Diagnostics resp) (Decoded.diags req)) = true ->
  Create r req resp w = (Response.Diagnostics_Append resp (Decoded.diags req), w)
  /\ Read r req resp w = (Response.Diagnostics_Append resp (Decoded.diags req), w)
  /\ Update r req resp w = (Response.Diagnostics_Append resp (Decoded.diags req), w)
  /\ Delete r req resp w = (Response.Diagnostics_Append resp (Decoded.diags req), w).
Proof.
  intros Herr. unfold Create, Read, Update, Delete. simpl. by rewrite Herr.
Qed.

(** ** Environment fallback *)

(** C4. When the resource's environment is empty, the provider's default
    environment is what the request is made for: the Service document that
    [post] builds carries it, and that document is the argument of the one
    Create call [post], [Create] and [Update] make; [Read] and [Delete]
    pass it to Get and Delete. With the default "staging" the document
    sent by [Create] has environment "staging". *)
Theorem environment_falls_back_to_provider_default
    (r : ServiceResource.t) (data : ServiceModel.t) :
  types.ValueString (ServiceModel.Environment data) = "" ->
  let default := StartrailProviderClient.Environment (ServiceResource.client r) in
  let tenant := StartrailProviderClient.Tenant (ServiceResource.client r) in
  let name := types.ValueString (ServiceModel.Name data) in
  bindings.Service.Environment (post_service r data) = default
  /\ (forall w, Remote.calls (post r data w).2
                = Remote.calls w ++ [ServiceAPI_Create (post_service r data)])
  /\ (forall req resp w,
        Decoded.data req = data ->
        diag.HasError (diag.Append (Response.Diagnostics resp) (Decoded.diags req)) = false ->
        Remote.calls (Create r req resp w).2
          = Remote.calls w ++ [ServiceAPI_Create (post_service r data)]
        /\ Remote.calls (Update r req resp w).2
          = Remote.calls w ++ [ServiceAPI_Create (post_service r data)]
        /\ Remote.calls (Read r req resp w).2
          = Remote.calls w ++ [ServiceAPI_Get tenant default name]
        /\ Remote.calls (Delete r req resp w).2
          = Remote.calls w ++ [ServiceAPI_Delete tenant default name])
  /\ (default = "staging" ->
      forall req resp w,
        Decoded.data req = data ->
        diag.HasError (diag.Append (Response.Diagnostics resp) (Decoded.diags req)) = false ->
        exists service,
          Remote.calls (Create r req resp w).2 = Remote.calls w ++ [ServiceAPI_Create service]
          /\ bindings.Service.Environment service = "staging").
Proof.
  intros Hempty default tenant name.
  assert (Henv : resolveEnvironment (ServiceResource.client r) data = default).
  { unfold resolveEnvironment. by rewrite Hempty. }
  split; [exact Henv|].
  split; [intros w; apply post_calls|].
  split.
  - intros req resp w <- Hok.
    rewrite Create_calls, Update_calls, Read_calls, Delete_calls by exact Hok.
    by rewrite Henv.
  - intros Hstaging req resp w <- Hok.
    exists (post_service r (Decoded.data req)). split.
    + by apply Create_calls.
    + simpl. rewrite Henv. exact Hstaging.
Qed.

Lemma environment_falls_back_to_provider_default_witness :
  let r := ServiceResource.mk
             (StartrailProviderClient.mk (APIClient.mk "http://localhost:8000" "ua" "apiKey k" false)
                "default" "staging") in
  let data := ServiceModel.mk types.StringUnknown [] types.StringNull types.BoolUnknown
                (types.StringValue "") [] None
                (types.StringValue "hello-world") types.StringNull [] in
  let w := Remote.mk (fun _ _ => Execution.mk None 200 "" None) [] in
  bindings.Service.Environment (post_service r data) = "staging"
  /\ exists service,
       Remote.calls (Create r (Decoded.mk data []) (Response.mk [] None) w).2
         = [ServiceAPI_Create service]
       /\ bindings.Service.Environment service = "staging".
Proof.
  intros r data w.
  destruct (environment_falls_back_to_provider_default r data eq_refl)
    as (Henv & _ & _ & Hcreate).
  split; [exact Henv|].
  apply (Hcreate eq_refl (Decoded.mk data []) (Response.mk [] None) w); reflexivity.
Defined.

(** ** The from-domain mapping *)

Lemma collect_entries {V E : Type} (mkE : types.Map -> types.String -> E)
    (labelsOf : V -> gmap string string) (entries : list (string * V))
    (acc : list E) (diags : diag.Diagnostics) :
  fold_left (fun '(acc, diags) '(k, v) =>
      let '(labels, d) := tfLabels (labelsOf v) in
      let diags := if diag.HasError d then diag.Append diags d else diags in
      (acc ++ [mkE labels (types.StringValue k)], diags)) entries (acc, diags)
  = (acc ++ map (fun '(k, v) =>
                   mkE (types.MapValue (types.StringValue <$> labelsOf v))
                       (types.StringValue k)) entries,
     diags).
Proof.
  revert acc. induction entries as [|[k v] entries IH]; intros acc; simpl.
  - by rewrite app_nil_r.
  - rewrite IH. by rewrite <- app_assoc.
Qed.

(** [parseServiceResponse] in closed form: it never reports a diagnostic,
    and each field of the model is a function of the response alone. *)
Lemma parseServiceResponse_eq (startrailResponse : option bindings.ServiceResponse.t) :
  let s := bindings.ServiceResponse.GetResponse startrailResponse in
  parseServiceResponse startrailResponse
  = ({| ServiceModel.Id :=
          types.StringValue (bindings.Service.Tenant s +:+ "/" +:+
                             bindings.Service.Environment s +:+ "/" +:+
                             bindings.Service.Name s);
        ServiceModel.Name := types.StringValue (bindings.Service.Name s);
        ServiceModel.Description := types.StringValue (bindings.Service.Description s);
        ServiceModel.Remarks := types.StringValue (bindings.Service.Remarks s);
        ServiceModel.Environment := types.StringValue (bindings.Service.Environment s);
        ServiceModel.Disabled := types.BoolValue (bindings.Service.GetDisabled s);
        ServiceModel.Access :=
          map (fun a => ServiceResourceModelAccess.mk
                          (types.BoolValue (bindings.Access.Auth a))
                          (types.StringValue (bindings.Access.Endpoint a))
                          (types.BoolValue (bindings.Access.Internal a)))
              (bindings.Service.Access s);
        ServiceModel.Metadata :=
          if bindings.Service.HasMetadata s then
            (fun ls => ServiceResourceModelMetadata.mk
                         (types.MapValue (types.StringValue <$> ls)))
            <$> bindings.Metadata.GetLabels (bindings.Service.GetMetadata s)
          else None;
        ServiceModel.Logging :=
          map (fun '(k, v) =>
                 ServiceResourceModelLogging.mk
                   (types.MapValue (types.StringValue <$> bindings.Logging.Labels v))
                   (types.StringValue k))
              (map_to_list (bindings.Service.Logging s));
        ServiceModel.Sources :=
          map (fun '(k, v) =>
                 ServiceResourceM0delSource.mk
                   (types.MapValue (types.StringValue <$> bindings.Source.Labels v))
                   (types.StringValue k))
              (map_to_list (bindings.Service.Sources s)) |}, []).
Proof.
  intros s. unfold parseServiceResponse. fold s.
  rewrite (collect_entries ServiceResourceModelLogging.mk bindings.Logging.Labels).
  rewrite (collect_entries ServiceResourceM0delSource.mk bindings.Source.Labels).
  simpl.
  destruct (bindings.Service.HasMetadata s); [|done].
  by destruct (bindings.Metadata.GetLabels (bindings.Service.GetMetadata s)).
Qed.

(** The model [Read] stores when the remote answers 200 without an error
    diagnostic. *)
Lemma Read_success (r : ServiceResource.t) (req : Decoded.t) (resp : Response.t) (w : Remote.t) :
  let client := ServiceResource.client r in
  let execute :=
    Remote.respond w (Remote.calls w)
      (ServiceAPI_Get (StartrailProviderClient.Tenant client)
         (resolveEnvironment client (Decoded.data req))
         (types.ValueString (ServiceModel.Name (Decoded.data req)))) in
  let decoded := diag.Append (Response.Diagnostics resp) (Decoded.diags req) in
  diag.HasError decoded = false ->
  Execution.err execute = None ->
  diag.HasError
    (handleStartrailDiagnostics
       (bindings.ServiceResponse.GetDiagnostics (Execution.startrailResponse execute))
       decoded) = false ->
  Execution.StatusCode execute = 200 ->
  Response.State (Read r req resp w).1
  = Some (parseServiceResponse (Execution.startrailResponse execute)).1.
Proof.
  intros client execute decoded Hok Herr Hdiag Hstatus.
  unfold Read, Remote.Execute. simpl. fold client. fold decoded. rewrite Hok.
  fold execute. rewrite Herr. rewrite Hdiag, Hstatus. simpl.
  by destruct (parseServiceResponse _).
Qed.

(** The model [post] returns when the remote answers 200 without an error
    diagnostic. *)
Lemma post_success (r : ServiceResource.t) (data : ServiceModel.t) (w : Remote.t) :
  let execute := Remote.respond w (Remote.calls w) (ServiceAPI_Create (post_service r data)) in
  Execution.err execute = None ->
  diag.HasError
    (handleStartrailDiagnostics
       (bindings.ServiceResponse.GetDiagnostics (Execution.startrailResponse execute)) [])
  = false ->
  Execution.StatusCode execute = 200 ->
  (post r data w).1 = parseServiceResponse (Execution.startrailResponse execute).
Proof.
  intros execute Herr Hdiag Hstatus.
  unfold post, Remote.Execute. fold execute. rewrite Herr, Hdiag, Hstatus. simpl.
  by destruct (parseServiceResponse _).
Qed.

(** C5. The id of the model built from a response is the response's tenant,
    environment and name joined by "/"; for acme, prod and hello-world it
    is "acme/prod/hello-world"; and the model [Read] stores on success has
    the id computed from the response it received, whatever the prior
    state and the id recorded in it were. *)
Theorem id_synthesized_from_response :
  (forall startrailResponse : option bindings.ServiceResponse.t,
     let s := bindings.ServiceResponse.GetResponse startrailResponse in
     ServiceModel.Id (parseServiceResponse startrailResponse).1
     = types.StringValue (bindings.Service.Tenant s +:+ "/" +:+
                          bindings.Service.Environment s +:+ "/" +:+
                          bindings.Service.Name s))
  /\ (forall startrailResponse : option bindings.ServiceResponse.t,
        let s := bindings.ServiceResponse.GetResponse startrailResponse in
        bindings.Service.Tenant s = "acme" ->
        bindings.Service.Environment s = "prod" ->
        bindings.Service.Name s = "hello-world" ->
        ServiceModel.Id (parseServiceResponse startrailResponse).1
        = types.StringValue "acme/prod/hello-world")
  /\ (forall (r : ServiceResource.t) (req : Decoded.t) (resp : Response.t) (w : Remote.t),
        let client := ServiceResource.client r in
        let execute :=
          Remote.respond w (Remote.calls w)
            (ServiceAPI_Get (StartrailProviderClient.Tenant client)
               (resolveEnvironment client (Decoded.data req))
               (types.ValueString (ServiceModel.Name (Decoded.data req)))) in
        let decoded := diag.Append (Response.Diagnostics resp) (Decoded.diags req) in
        let s := bindings.ServiceResponse.GetResponse (Execution.startrailResponse execute) in
        diag.HasError decoded = false ->
        Execution.err execute = None ->
        diag.HasError
          (handleStartrailDiagnostics
             (bindings.ServiceResponse.GetDiagnostics (Execution.startrailResponse execute))
             decoded) = false ->
        Execution.StatusCode execute = 200 ->
        exists stored,
          Response.State (Read r req resp w).1 = Some stored
          /\ ServiceModel.Id stored
             = types.StringValue (bindings.Service.Tenant s +:+ "/" +:+
                                  bindings.Service.Environment s +:+ "/" +:+
                                  bindings.Service.Name s)).
Proof.
  split; [|split].
  - intros startrailResponse s. by rewrite parseServiceResponse_eq.
  - intros startrailResponse s Ht He Hn. rewrite parseServiceResponse_eq. simpl.
    fold s. by rewrite Ht, He, Hn.
  - intros r req resp w client execute decoded s Hok Herr Hdiag Hstatus.
    eexists. split; [by apply Read_success|].
    by rewrite parseServiceResponse_eq.
Qed.

Lemma id_synthesized_from_response_witness :
  let service :=
    bindings.Service.mk "hello-world" "A service which tells hello world" "" "prod" "acme"
      (Some false) [bindings.Access.mk true "https://example.com/hello" false]
      bindings.NullableMetadata.zero ∅ ∅ in
  let startrailResponse := Some (bindings.ServiceResponse.mk [] service) in
  let r := ServiceResource.mk
             (StartrailProviderClient.mk (APIClient.mk "http://localhost:8000" "ua" "apiKey k" false)
                "acme" "") in
  let prior := ServiceModel.mk (types.StringValue "stale/identifier") [] types.StringNull
                 types.BoolNull (types.StringValue "prod") [] None
                 (types.StringValue "hello-world") types.StringNull [] in
  let w := Remote.mk (fun _ _ => Execution.mk startrailResponse 200 "" None) [] in
  ServiceModel.Id (parseServiceResponse startrailResponse).1
    = types.StringValue "acme/prod/hello-world"
  /\ exists stored,
       Response.State (Read r (Decoded.mk prior []) (Response.mk [] (Some prior)) w).1
         = Some stored
       /\ ServiceModel.Id stored = types.StringValue "acme/prod/hello-world".
Proof.
  intros service startrailResponse r prior w.
  destruct id_synthesized_from_response as (_ & Hexample & Hread).
  split.
  - apply (Hexample startrailResponse); reflexivity.
  - apply (Hread r (Decoded.mk prior []) (Response.mk [] (Some prior)) w); reflexivity.
Defined.

(** ** Provider configuration *)

Lemma deviceFlow_failure (p : StartrailProvider.t) (u : string) (data : StartrailProviderModel.t)
    (resp resp' : ConfigureResponse.t) (h : Host.t) :
  (deviceFlow p u data resp h).1 = inl resp' ->
  diag.HasError (ConfigureResponse.Diagnostics resp') = true.
Proof.
  unfold deviceFlow.
  repeat case_match; simpl; intros [= <-]; apply HasError_AddError.
Qed.

(** A configuration that ends without an error hands the same client to
    resources and data sources; its tenant is the configured one, or
    "default" when that is empty, and its environment the configured one. *)
Lemma Configure_client (p : StartrailProvider.t) (req : ProviderDecoded.t)
    (resp : ConfigureResponse.t) (h : Host.t) :
  let data := ProviderDecoded.data req in
  let resp' := (Configure p req resp h).1 in
  diag.HasError (ConfigureResponse.Diagnostics resp') = false ->
  exists c,
    ConfigureResponse.ResourceData resp' = Some c
    /\ ConfigureResponse.DataSourceData resp' = Some c
    /\ StartrailProviderClient.Tenant c
       = (if (types.ValueString (StartrailProviderModel.Tenant data) =? "")%string
          then "default"
          else types.ValueString (StartrailProviderModel.Tenant data))
    /\ StartrailProviderClient.Environment c
       = types.ValueString (StartrailProviderModel.Environment data).
Proof.
  intros data resp'. subst resp'. unfold Configure. fold data.
  match goal with
  | |- context [if diag.HasError ?ds then (_, h) else _] =>
      destruct (diag.HasError ds) eqn:Hdec
  end.
  { simpl in *. intros Hno. congruence. }
  destruct (Host.url_Parse h _) as [u|e].
  2:{ simpl. by rewrite HasError_AddError. }
  match goal with
  | |- context [if ?c then deviceFlow ?p' ?u' ?d' ?r' ?h0 else ?other] =>
      destruct (if c then deviceFlow p' u' d' r' h0 else other)
        as [[failed|token] h'] eqn:Hauth
  end.
  - simpl. intros Hno. exfalso.
    assert (Hfail : diag.HasError (ConfigureResponse.Diagnostics failed) = true);
      [|by rewrite Hfail in Hno].
    repeat case_match; try discriminate.
    eapply deviceFlow_failure. by erewrite Hauth.
  - simpl. intros _. eexists. repeat split.
Qed.

Lemma post_service_tenant (r : ServiceResource.t) (data : ServiceModel.t) :
  bindings.Service.Tenant (post_service r data)
  = StartrailProviderClient.Tenant (ServiceResource.client r).
Proof. reflexivity. Qed.

(** C10. When the provider's tenant attribute is empty, a configuration
    that succeeds stores the tenant "default" in the client it hands to the
    resource and the data source; from then on, whatever the resource's own
    configuration is, the Service document sent to Create carries the
    tenant "default" and Get and Delete are called for the tenant
    "default". *)
Theorem empty_tenant_is_default (p : StartrailProvider.t) (req : ProviderDecoded.t)
    (resp : ConfigureResponse.t) (h : Host.t) :
  let configured := (Configure p req resp h).1 in
  types.ValueString (StartrailProviderModel.Tenant (ProviderDecoded.data req)) = "" ->
  diag.HasError (ConfigureResponse.Diagnostics configured) = false ->
  exists (c : StartrailProviderClient.t) (r : ServiceResource.t) (d : ServiceDataSource.t),
    ServiceResource_Configure (ConfigureResponse.ResourceData configured) = Some r
    /\ ServiceDataSource_Configure (ConfigureResponse.DataSourceData configured) = Some d
    /\ ServiceResource.client r = c
    /\ ServiceDataSource.client d = c
    /\ StartrailProviderClient.Tenant c = "default"
    /\ forall (sreq : Decoded.t) (sresp : Response.t) (w : Remote.t),
         diag.HasError (diag.Append (Response.Diagnostics sresp) (Decoded.diags sreq)) = false ->
         let data := Decoded.data sreq in
         let environment := resolveEnvironment c data in
         let name := types.ValueString (ServiceModel.Name data) in
         bindings.Service.Tenant (post_service r data) = "default"
         /\ Remote.calls (Create r sreq sresp w).2
            = Remote.calls w ++ [ServiceAPI_Create (post_service r data)]
         /\ Remote.calls (Update r sreq sresp w).2
            = Remote.calls w ++ [ServiceAPI_Create (post_service r data)]
         /\ Remote.calls (Read r sreq sresp w).2
            = Remote.calls w ++ [ServiceAPI_Get "default" environment name]
         /\ Remote.calls (Delete r sreq sresp w).2
            = Remote.calls w ++ [ServiceAPI_Delete "default" environment name]
         /\ Remote.calls (DataSource_Read d sreq sresp w).2
            = Remote.calls w ++ [ServiceAPI_Get "default" environment name].
Proof.
  intros configured Hempty Hok.
  destruct (Configure_client p req resp h Hok) as (c & Hr & Hd & Ht & _).
  fold configured in Hr, Hd.
  rewrite Hempty in Ht. simpl in Ht.
  exists c, (ServiceResource.mk c), (ServiceDataSource.mk c).
  rewrite Hr, Hd. repeat split; try done.
  - by rewrite Create_calls.
  - by rewrite Update_calls.
  - rewrite Read_calls by done. simpl. by rewrite Ht.
  - rewrite Delete_calls by done. simpl. by rewrite Ht.
  - rewrite DataSource_Read_calls by done. simpl. by rewrite Ht.
Qed.

Lemma empty_tenant_is_default_witness :
  let p := StartrailProvider.mk "dev" in
  let model := StartrailProviderModel.mk (types.StringValue "http://localhost:8000")
                 (types.StringValue "k") (types.BoolValue true)
                 (types.StringValue "staging") types.StringNull in
  let h := Host.mk (fun name => if (name =? "STARTRAIL_API_KEY")%string then "k" else "")
             Ok
             (fun _ => WellKnownExecution.mk (DeviceAuth.mk false "" "" "" "" []) 200 None)
             (fun _ _ => Err "no token endpoint") ∅ [] in
  exists c,
    ConfigureResponse.ResourceData
      (Configure p (ProviderDecoded.mk model []) (ConfigureResponse.mk [] None None) h).1
    = Some c
    /\ StartrailProviderClient.Tenant c = "default".
Proof.
  intros p model h.
  destruct (empty_tenant_is_default p (ProviderDecoded.mk model [])
              (ConfigureResponse.mk [] None None) h)
    as (c & r & d & Hr & _ & Hc & _ & Ht & _); [reflexivity|reflexivity|].
  exists c. split; [|exact Ht].
  destruct (ConfigureResponse.ResourceData _); [|discriminate].
  simpl in Hr. injection Hr as <-. by rewrite <- Hc.
Defined.

(** The device-flow branch always starts by asking the well-known endpoint,
    with a client that carries no credential. *)
Lemma deviceFlow_events (p : StartrailProvider.t) (u : string) (data : StartrailProviderModel.t)
    (resp : ConfigureResponse.t) (h : Host.t) :
  exists rest,
    Host.events (deviceFlow p u data resp h).2
    = Host.events h
      ++ EvWellKnownAuth (newClient u (StartrailProvider.version p) ""
                            (types.ValueBool (StartrailProviderModel.Debug data)))
      :: rest.
Proof.
  unfold deviceFlow, Host.keyring_Get, Host.keyring_Set, Host.log.
  repeat case_match; simplify_eq; simpl;
    rewrite <- ?app_assoc; simpl; eexists; reflexivity.
Qed.

(** Which branch [Configure] takes once the configuration is decoded and
    the endpoint parsed: the device flow is entered when both environment
    variables are empty, and also whenever the [api_key] attribute is
    null, whatever the environment holds. *)
Lemma Configure_enters_device_flow (p : StartrailProvider.t) (req : ProviderDecoded.t)
    (resp : ConfigureResponse.t) (h : Host.t) (u : string) :
  let data := ProviderDecoded.data req in
  diag.HasError (diag.Append (ConfigureResponse.Diagnostics resp) (ProviderDecoded.diags req))
  = false ->
  Host.url_Parse h (types.ValueString (StartrailProviderModel.Endpoint data)) = Ok u ->
  (Host.Getenv h "STARTRAIL_TOKEN" = "" /\ Host.Getenv h "STARTRAIL_API_KEY" = ""
   \/ StartrailProviderModel.ApiKey data = types.StringNull) ->
  exists rest,
    Host.events (Configure p req resp h).2
    = Host.events h
      ++ EvWellKnownAuth (newClient u (StartrailProvider.version p) ""
                            (types.ValueBool (StartrailProviderModel.Debug data)))
      :: rest.
Proof.
  intros data Hdec Hurl Hguard. unfold Configure. fold data. simpl.
  rewrite Hdec, Hurl.
  assert (Hc : (Host.Getenv h "STARTRAIL_TOKEN" =? "")%string
               && (Host.Getenv h "STARTRAIL_API_KEY" =? "")%string
               || types.String_IsNull (StartrailProviderModel.ApiKey data) = true).
  { destruct Hguard as [[-> ->]| ->]; [done|]. simpl. apply orb_true_r. }
  rewrite Hc.
  match goal with
  | |- context [deviceFlow ?p' ?u' ?d' ?r' ?h0] =>
      destruct (deviceFlow_events p' u' d' r' h0) as [rest Hev];
      destruct (deviceFlow p' u' d' r' h0) as [[failed|token] h']
  end; exists rest; exact Hev.
Qed.

(** With a non-null [api_key] attribute, a set STARTRAIL_TOKEN is used as
    the bearer credential and nothing outside the process is touched. *)
Lemma Configure_uses_token (p : StartrailProvider.t) (req : ProviderDecoded.t)
    (resp : ConfigureResponse.t) (h : Host.t) (u : string) :
  let data := ProviderDecoded.data req in
  diag.HasError (diag.Append (ConfigureResponse.Diagnostics resp) (ProviderDecoded.diags req))
  = false ->
  Host.url_Parse h (types.ValueString (StartrailProviderModel.Endpoint data)) = Ok u ->
  Host.Getenv h "STARTRAIL_TOKEN" <> "" ->
  StartrailProviderModel.ApiKey data <> types.StringNull ->
  (APIClient.Authorization ∘ StartrailProviderClient.Client)
    <$> ConfigureResponse.ResourceData (Configure p req resp h).1
  = Some ("Bearer " +:+ Host.Getenv h "STARTRAIL_TOKEN")
  /\ (Configure p req resp h).2 = h.
Proof.
  intros data Hdec Hurl Htok Hkey. unfold Configure. fold data. simpl.
  rewrite Hdec, Hurl.
  apply String.eqb_neq in Htok. rewrite Htok. simpl.
  destruct (StartrailProviderModel.ApiKey data); [done| |]; simpl; done.
Qed.

(** C3, evaluated. STARTRAIL_TOKEN is set and the [api_key] attribute is
    null: [Configure] queries the well-known endpoint, finds the device flow
    disabled, reports an error and configures no client; the token is never
    used. *)
Theorem Configure_token_set_api_key_null :
  let p := StartrailProvider.mk "dev" in
  let model := StartrailProviderModel.mk (types.StringValue "http://localhost:8000")
                 types.StringNull (types.BoolValue true)
                 (types.StringValue "staging") types.StringNull in
  let h := Host.mk (fun name => if (name =? "STARTRAIL_TOKEN")%string then "tok" else "")
             Ok
             (fun _ => WellKnownExecution.mk (DeviceAuth.mk false "" "" "" "" []) 200 None)
             (fun _ _ => Err "no token endpoint") ∅ [] in
  let result := Configure p (ProviderDecoded.mk model []) (ConfigureResponse.mk [] None None) h in
  Host.Getenv h "STARTRAIL_TOKEN" = "tok"
  /\ ConfigureResponse.ResourceData result.1 = None
  /\ ConfigureResponse.Diagnostics result.1
     = [diag.NewErrorDiagnostic "Client Error"
          "Device flow is not enabled for the tenant. Please pass an 'api_key' instead"]
  /\ Host.events result.2
     = [EvWellKnownAuth (newClient "http://localhost:8000" "dev" "" true)].
Proof. vm_compute. repeat split. Qed.

(** ** Responses with a status code other than 200 *)

Lemma elem_of_Append (diags : diag.Diagnostics) (new : list diag.Diagnostic)
    (d : diag.Diagnostic) :
  d ∈ diags \/ d ∈ new -> d ∈ diag.Append diags new.
Proof.
  revert diags. induction new as [|x new IH]; intros diags [H|H]; simpl.
  - done.
  - by apply elem_of_nil in H.
  - destruct (diag.Contains diags x); apply IH; left; [done|].
    apply elem_of_app. by left.
  - unfold diag.Contains. case_bool_decide as Hin.
    + apply IH. apply elem_of_cons in H as [->|H]; [by left|by right].
    + apply IH. apply elem_of_cons in H as [->|H]; [left|by right].
      apply elem_of_app. right. by apply list_elem_of_singleton.
Qed.

Lemma HasError_Append_r (diags : diag.Diagnostics) (new : list diag.Diagnostic) :
  diag.HasError new = true -> diag.HasError (diag.Append diags new) = true.
Proof.
  unfold diag.HasError. rewrite !existsb_exists.
  intros (d & Hin & Herr). exists d. split; [|done].
  apply list_elem_of_In, elem_of_Append. right. by apply list_elem_of_In.
Qed.

(** Whatever else the response holds, a status code other than 200 makes
    [post] return the zero model together with an error. *)
Lemma post_non_200 (r : ServiceResource.t) (data : ServiceModel.t) (w : Remote.t) :
  let execute := Remote.respond w (Remote.calls w) (ServiceAPI_Create (post_service r data)) in
  Execution.StatusCode execute <> 200 ->
  (post r data w).1.1 = ServiceModel.zero
  /\ diag.HasError (post r data w).1.2 = true.
Proof.
  intros execute Hstatus. unfold post, Remote.Execute. fold execute.
  destruct (Execution.err execute).
  { split; [done|]. apply HasError_AddError. }
  destruct (diag.HasError (handleStartrailDiagnostics _ _)) eqn:Hdiag.
  { split; [done|]. exact Hdiag. }
  apply Z.eqb_neq in Hstatus. rewrite Hstatus. simpl.
  split; [done|]. apply HasError_AddError.
Qed.

(** [Read], [Update], [Delete] and the data source's [Read] report an error
    and leave the state as it was when the status code is not 200. *)
Lemma Update_non_200 (r : ServiceResource.t) (req : Decoded.t) (resp : Response.t)
    (w : Remote.t) :
  let execute :=
    Remote.respond w (Remote.calls w) (ServiceAPI_Create (post_service r (Decoded.data req))) in
  Execution.StatusCode execute <> 200 ->
  diag.HasError (Response.Diagnostics (Update r req resp w).1) = true
  /\ Response.State (Update r req resp w).1 = Response.State resp.
Proof.
  intros execute Hstatus. unfold Update.
  destruct (diag.HasError (Response.Diagnostics (Response.Diagnostics_Append resp _))) eqn:Hdec.
  { done. }
  destruct (post_non_200 r (Decoded.data req) w Hstatus) as [_ Herr].
  destruct (post r (Decoded.data req) w) as [[data' diags'] w']. simpl in Herr.
  assert (Hall : diag.HasError
                   (Response.Diagnostics
                      (Response.Diagnostics_Append
                         (Response.Diagnostics_Append resp (Decoded.diags req)) diags'))
                 = true).
  { simpl. by apply HasError_Append_r. }
  rewrite Hall. done.
Qed.

Lemma Read_non_200 (r : ServiceResource.t) (req : Decoded.t) (resp : Response.t) (w : Remote.t) :
  let client := ServiceResource.client r in
  let execute :=
    Remote.respond w (Remote.calls w)
      (ServiceAPI_Get (StartrailProviderClient.Tenant client)
         (resolveEnvironment client (Decoded.data req))
         (types.ValueString (ServiceModel.Name (Decoded.data req)))) in
  Execution.StatusCode execute <> 200 ->
  diag.HasError (Response.Diagnostics (Read r req resp w).1) = true
  /\ Response.State (Read r req resp w).1 = Response.State resp.
Proof.
  intros client execute Hstatus. unfold Read, Remote.Execute. fold client. fold execute.
  destruct (diag.HasError (Response.Diagnostics (Response.Diagnostics_Append resp _))) eqn:Hdec.
  { done. }
  destruct (Execution.err execute).
  { split; [apply HasError_AddError|done]. }
  destruct (diag.HasError (Response.Diagnostics (Response.mk _ _))) eqn:Hdiag.
  { done. }
  apply Z.eqb_neq in Hstatus. rewrite Hstatus. simpl.
  split; [apply HasError_AddError|done].
Qed.

Lemma Delete_non_200 (r : ServiceResource.t) (req : Decoded.t) (resp : Response.t)
    (w : Remote.t) :
  let client := ServiceResource.client r in
  let execute :=
    Remote.respond w (Remote.calls w)
      (ServiceAPI_Delete (StartrailProviderClient.Tenant client)
         (resolveEnvironment client (Decoded.data req))
         (types.ValueString (ServiceModel.Name (Decoded.data req)))) in
  Execution.StatusCode execute <> 200 ->
  diag.HasError (Response.Diagnostics (Delete r req resp w).1) = true
  /\ Response.State (Delete r req resp w).1 = Response.State resp.
Proof.
  intros client execute Hstatus. unfold Delete, Remote.Execute. fold client. fold execute.
  destruct (diag.HasError (Response.Diagnostics (Response.Diagnostics_Append resp _))) eqn:Hdec.
  { done. }
  destruct (Execution.err execute).
  { split; [apply HasError_AddError|done]. }
  destruct (diag.HasError (Response.Diagnostics (Response.mk _ _))) eqn:Hdiag.
  { done. }
  apply Z.eqb_neq in Hstatus. rewrite Hstatus. simpl.
  split; [apply HasError_AddError|done].
Qed.

(** [Create] has no such check after [post]: once the plan is decoded, a
    status code other than 200 makes it report the error and store the
    zero model all the same. *)
Lemma Create_non_200 (r : ServiceResource.t) (req : Decoded.t) (resp : Response.t)
    (w : Remote.t) :
  let execute :=
    Remote.respond w (Remote.calls w) (ServiceAPI_Create (post_service r (Decoded.data req))) in
  diag.HasError (diag.Append (Response.Diagnostics resp) (Decoded.diags req)) = false ->
  Execution.StatusCode execute <> 200 ->
  diag.HasError (Response.Diagnostics (Create r req resp w).1) = true
  /\ Response.State (Create r req resp w).1 = Some ServiceModel.zero.
Proof.
  intros execute Hdec Hstatus. unfold Create. simpl. rewrite Hdec.
  destruct (post_non_200 r (Decoded.data req) w Hstatus) as [Hzero Herr].
  destruct (post r (Decoded.data req) w) as [[data' diags'] w'].
  simpl in *. subst data'. split; [|done].
  by apply HasError_Append_r.
Qed.

(** C2, evaluated. The remote answers a Create with status 500, which the
    client also reports as an error, or with status 201 and no error. In
    both cases [Create] reports an error, and replaces the null prior state
    by the zero model, where [Update] on the same answers leaves the state
    alone. *)
Theorem Create_writes_state_on_failed_status :
  let r := ServiceResource.mk
             (StartrailProviderClient.mk (APIClient.mk "http://localhost:8000" "ua" "apiKey k" false)
                "default" "staging") in
  let plan := ServiceModel.mk types.StringUnknown [] (types.StringValue "A service")
                types.BoolUnknown (types.StringValue "prod") [] None
                (types.StringValue "hello-world") types.StringNull [] in
  let w500 := Remote.mk (fun _ _ => Execution.mk None 500 "internal error"
                                      (Some "500 Internal Server Error")) [] in
  let w201 := Remote.mk (fun _ _ => Execution.mk None 201 "created" None) [] in
  let req := Decoded.mk plan [] in
  let resp := Response.mk [] None in
  (Response.Diagnostics (Create r req resp w500).1
     = [diag.NewErrorDiagnostic "Client Error"
          "Unable to update service, got error: 500 Internal Server Error"]
   /\ Response.State (Create r req resp w500).1 = Some ServiceModel.zero
   /\ Response.State (Create r req resp w500).1 <> Response.State resp
   /\ Response.State (Update r req resp w500).1 = Response.State resp)
  /\
  (Response.Diagnostics (Create r req resp w201).1
     = [diag.NewErrorDiagnostic "Client Error"
          "Unable to update service, got errors: created"]
   /\ Response.State (Create r req resp w201).1 = Some ServiceModel.zero
   /\ Response.State (Create r req resp w201).1 <> Response.State resp
   /\ Response.State (Update r req resp w201).1 = Response.State resp).
Proof. vm_compute. repeat split; discriminate. Qed.

(** ** To-domain, then from-domain *)

Lemma append_loop_map {A B : Type} (f : A -> B) (xs : list A) (acc : list B) :
  fold_left (fun acc x => acc ++ [f x]) xs acc = acc ++ map f xs.
Proof.
  revert acc. induction xs as [|x xs IH]; intros acc; simpl.
  - by rewrite app_nil_r.
  - rewrite IH. by rewrite <- app_assoc.
Qed.

(** Ranging over a map and inserting every entry again rebuilds the map,
    in whatever order the entries come. *)
Lemma insert_loop_map_to_list {V B : Type} (val : V -> B) (m : gmap string V) :
  fold_left (fun (acc : gmap string B) (e : string * V) => <[e.1 := val e.2]> acc)
    (map_to_list m) ∅
  = val <$> m.
Proof.
  apply map_eq. intros k. rewrite lookup_fmap.
  destruct (m !! k) as [v|] eqn:Hk; simpl.
  - apply elem_of_map_to_list in Hk.
    apply list_elem_of_split in Hk as (before & after & Hsplit).
    rewrite Hsplit.
    apply (loop_lookup_last fst (fun e : string * V => val e.2) before after (k, v)).
    intros [k' v'] Hin Heq. simpl in Heq. subst k'.
    pose proof (NoDup_fst_map_to_list m) as Hnd.
    rewrite Hsplit, fmap_app, fmap_cons in Hnd.
    apply NoDup_app in Hnd as (_ & _ & Hnd).
    apply NoDup_cons in Hnd as [Hnot _].
    apply Hnot. apply list_elem_of_fmap. by exists (k, v').
  - apply (loop_lookup_None fst (fun e : string * V => val e.2)).
    split; [apply lookup_empty|].
    intros [k' v'] Hin Heq. simpl in Heq. subst k'.
    apply elem_of_map_to_list in Hin. congruence.
Qed.

Lemma fold_left_map {A B C : Type} (f : C -> B -> C) (g : A -> B) (xs : list A) (c : C) :
  fold_left f (map g xs) c = fold_left (fun c x => f c (g x)) xs c.
Proof. revert c. induction xs as [|x xs IH]; intros c; simpl; [done|apply IH]. Qed.

Lemma fold_left_ext_fun {A C : Type} (f g : C -> A -> C) (xs : list A) (c : C) :
  (forall c x, f c x = g c x) -> fold_left f xs c = fold_left g xs c.
Proof.
  intros Hfg. revert c. induction xs as [|x xs IH]; intros c; simpl; [done|].
  by rewrite Hfg, IH.
Qed.

Lemma fmap_ValueString_StringValue (labels : gmap string string) :
  types.ValueString <$> (types.StringValue <$> labels) = labels.
Proof. rewrite <- map_fmap_compose. apply map_fmap_id. Qed.

(** What survives the round trip. Mapping a model to the domain, reading
    the result back as if the remote had echoed it, and mapping to the
    domain again yields the same Service document, except that an absent
    [disabled] has become an explicit false. So name, description, remarks,
    environment, tenant, the access list, and the Logging and Source maps
    keyed by [source] are preserved. *)
Lemma post_service_round_trip (r : ServiceResource.t) (data : ServiceModel.t)
    (ds : list bindings.Diagnostic.t) :
  let service := post_service r data in
  let back := (parseServiceResponse (Some (bindings.ServiceResponse.mk ds service))).1 in
  post_service r back
  = {| bindings.Service.Name := bindings.Service.Name service;
       bindings.Service.Description := bindings.Service.Description service;
       bindings.Service.Remarks := bindings.Service.Remarks service;
       bindings.Service.Environment := bindings.Service.Environment service;
       bindings.Service.Tenant := bindings.Service.Tenant service;
       bindings.Service.Disabled := Some (bindings.Service.GetDisabled service);
       bindings.Service.Access := bindings.Service.Access service;
       bindings.Service.Metadata := bindings.Service.Metadata service;
       bindings.Service.Logging := bindings.Service.Logging service;
       bindings.Service.Sources := bindings.Service.Sources service |}.
Proof.
  intros service back. subst back. rewrite parseServiceResponse_eq.
  cbn [bindings.ServiceResponse.GetResponse bindings.ServiceResponse.Response fst].
  unfold post_service at 1.
  cbn [ServiceModel.Name ServiceModel.Description ServiceModel.Remarks
       ServiceModel.Environment ServiceModel.Disabled ServiceModel.Access
       ServiceModel.Logging ServiceModel.Sources ServiceModel.Metadata
       types.ValueString types.ValueBoolPointer].
  f_equal.
  - unfold resolveEnvironment. cbn [ServiceModel.Environment types.ValueString].
    destruct (String.eqb_spec (bindings.Service.Environment service) "") as [He|He]; [|done].
    rewrite He. subst service. unfold post_service in He.
    cbn [bindings.Service.Environment] in He. unfold resolveEnvironment in He.
    destruct (_ =? _)%string eqn:Hd in He; [done|].
    apply String.eqb_neq in Hd. congruence.
  - rewrite append_loop_map, map_map. cbn [app].
    rewrite <- (map_id (bindings.Service.Access service)) at 2.
    apply map_ext. by intros [].
  - rewrite fold_left_map.
    erewrite fold_left_ext_fun; [rewrite (insert_loop_map_to_list id); apply map_fmap_id|].
    intros acc [k [labels]]. simpl. by rewrite fmap_ValueString_StringValue.
  - rewrite fold_left_map.
    erewrite fold_left_ext_fun; [rewrite (insert_loop_map_to_list id); apply map_fmap_id|].
    intros acc [k [labels]]. simpl. by rewrite fmap_ValueString_StringValue.
Qed.

(** [post] never looks at the model's metadata block: the document it
    sends has its metadata unset. *)
Lemma post_service_metadata_unset (r : ServiceResource.t) (data : ServiceModel.t) :
  bindings.Service.Metadata (post_service r data) = bindings.NullableMetadata.zero
  /\ bindings.Service.HasMetadata (post_service r data) = false.
Proof. done. Qed.

(** So the model read back from an echoed document has no metadata block,
    whatever the original had. *)
Lemma round_trip_metadata_absent (r : ServiceResource.t) (data : ServiceModel.t)
    (ds : list bindings.Diagnostic.t) :
  ServiceModel.Metadata
    (parseServiceResponse (Some (bindings.ServiceResponse.mk ds (post_service r data)))).1
  = None.
Proof. by rewrite parseServiceResponse_eq. Qed.

(** C8, evaluated. The plan has a metadata block with the label
    team = infra; the Service document [post] builds, and hands to the
    Create call, has no metadata at all. *)
Theorem post_omits_metadata_labels :
  let r := ServiceResource.mk
             (StartrailProviderClient.mk (APIClient.mk "http://localhost:8000" "ua" "apiKey k" false)
                "default" "staging") in
  let plan := ServiceModel.mk types.StringUnknown [] (types.StringValue "A service")
                types.BoolUnknown (types.StringValue "prod") []
                (Some (ServiceResourceModelMetadata.mk
                         (types.MapValue {["team" := types.StringValue "infra"]})))
                (types.StringValue "hello-world") types.StringNull [] in
  let w := Remote.mk (fun _ _ => Execution.mk None 200 "" None) [] in
  exists service,
    Remote.calls (post r plan w).2 = [ServiceAPI_Create service]
    /\ bindings.Service.HasMetadata service = false
    /\ bindings.Metadata.GetLabels (bindings.Service.GetMetadata service) = None
    /\ bindings.Metadata.GetLabels (bindings.Service.GetMetadata service)
       <> Some {["team" := "infra"]}.
Proof.
  intros r plan w. exists (post_service r plan).
  split; [apply post_calls|]. repeat split. discriminate.
Qed.

(** C1, evaluated. The same plan, mapped to the domain and read back from
    the document as sent: name, environment and description come back, and
    the id is built from the provider's tenant, but the metadata block is
    gone. *)
Theorem round_trip_loses_metadata :
  let r := ServiceResource.mk
             (StartrailProviderClient.mk (APIClient.mk "http://localhost:8000" "ua" "apiKey k" false)
                "default" "staging") in
  let metadata := ServiceResourceModelMetadata.mk
                    (types.MapValue {["team" := types.StringValue "infra"]}) in
  let attrs := ServiceModel.mk types.StringUnknown [] (types.StringValue "A service")
                 types.BoolUnknown (types.StringValue "prod") [] (Some metadata)
                 (types.StringValue "hello-world") types.StringNull [] in
  let back :=
    (parseServiceResponse (Some (bindings.ServiceResponse.mk [] (post_service r attrs)))).1 in
  ServiceModel.Name back = ServiceModel.Name attrs
  /\ ServiceModel.Environment back = ServiceModel.Environment attrs
  /\ ServiceModel.Description back = ServiceModel.Description attrs
  /\ ServiceModel.Id back = types.StringValue "default/prod/hello-world"
  /\ ServiceModel.Metadata attrs = Some metadata
  /\ ServiceModel.Metadata back = None.
Proof.
  intros r metadata attrs back. subst back.
  rewrite parseServiceResponse_eq. repeat split.
Qed.

(* ===================================================================== *)
(** * Further properties of the code *)
(* ===================================================================== *)

(** ** Diagnostics translation *)

Lemma Append_grows (diags : diag.Diagnostics) (new : list diag.Diagnostic) :
  exists added,
    diag.Append diags new = diags ++ added
    /\ (length added <= length new)%nat
    /\ forall a, a ∈ added -> a ∈ new.
Proof.
  revert diags. induction new as [|x new IH]; intros diags; simpl.
  - exists []. rewrite app_nil_r. split; [done|]. split; [done|]. by intros a Ha.
  - destruct (diag.Contains diags x).
    + destruct (IH diags) as (added & Heq & Hlen & Hin).
      exists added. split; [done|]. split; [lia|].
      intros a Ha. right. by apply Hin.
    + destruct (IH (diags ++ [x])) as (added & Heq & Hlen & Hin).
      exists (x :: added). rewrite Heq, <- app_assoc. split; [done|].
      split; [simpl; lia|].
      intros a Ha. apply elem_of_cons in Ha as [->|Ha]; [by left|right; by apply Hin].
Qed.

Lemma elem_of_Append_inv (diags : diag.Diagnostics) (new : list diag.Diagnostic)
    (d : diag.Diagnostic) :
  d ∈ diag.Append diags new -> d ∈ diags \/ d ∈ new.
Proof.
  destruct (Append_grows diags new) as (added & -> & _ & Hin).
  intros H. apply elem_of_app in H as [H|H]; [by left|right; by apply Hin].
Qed.

Lemma HasError_Append (diags : diag.Diagnostics) (new : list diag.Diagnostic) :
  diag.HasError (diag.Append diags new) = diag.HasError diags || diag.HasError new.
Proof.
  apply eq_true_iff_eq. rewrite orb_true_iff. unfold diag.HasError.
  rewrite !existsb_exists. split.
  - intros (d & Hin & Hd). apply list_elem_of_In, elem_of_Append_inv in Hin as [Hin|Hin].
    + left. exists d. split; [by apply list_elem_of_In|done].
    + right. exists d. split; [by apply list_elem_of_In|done].
  - intros [(d & Hin & Hd)|(d & Hin & Hd)]; exists d; (split; [|done]);
      apply list_elem_of_In, elem_of_Append; [left|right]; by apply list_elem_of_In.
Qed.

Lemma each_length (ds : list bindings.Diagnostic.t) :
  (length (concat (map (fun d => handleStartrailDiagnostics [d] []) ds)) <= length ds)%nat.
Proof.
  induction ds as [|d ds IH]; [done|].
  cbn [map concat]. rewrite length_app.
  set (n := length (concat _)) in *. clearbody n.
  cbn [handleStartrailDiagnostics length].
  destruct (_ || _); [simpl; lia|].
  destruct (_ || _); simpl; lia.
Qed.

Lemma each_origin (ds : list bindings.Diagnostic.t) (a : diag.Diagnostic) :
  a ∈ concat (map (fun d => handleStartrailDiagnostics [d] []) ds) ->
  exists d,
    d ∈ ds
    /\ diag.summary a = bindings.Diagnostic.Summary d
    /\ diag.detail a = bindings.Diagnostic.Detail d
    /\ (diag.severity a = diag.SeverityError
          /\ (bindings.Diagnostic.Severity d = "error"
              \/ bindings.Diagnostic.Severity d = "Error")
        \/ diag.severity a = diag.SeverityWarning
          /\ (bindings.Diagnostic.Severity d = "warning"
              \/ bindings.Diagnostic.Severity d = "Warning")).
Proof.
  induction ds as [|d ds IH]; [intros H; by apply elem_of_nil in H|].
  cbn [map concat]. intros H. apply elem_of_app in H as [H|H].
  - exists d. split; [by left|].
    cbn [handleStartrailDiagnostics] in H. rewrite !severity_test in H.
    case_bool_decide as He.
    + apply list_elem_of_singleton in H as ->. simpl. auto.
    + case_bool_decide as Hw; [|by apply elem_of_nil in H].
      apply list_elem_of_singleton in H as ->. simpl. auto.
  - destruct (IH H) as (d' & Hin & Hrest). exists d'. split; [by right|done].
Qed.

(** X1. The translation only ever adds to the caller's diagnostics: what
    the caller held stays in front, in order; at most one diagnostic is
    added per remote item; and each added diagnostic is the error or
    warning of some remote item of that severity, with its summary and
    detail. *)
Theorem handleStartrailDiagnostics_only_adds
    (ds : list bindings.Diagnostic.t) (diags : diag.Diagnostics) :
  exists added,
    handleStartrailDiagnostics ds diags = diags ++ added
    /\ (length added <= length ds)%nat
    /\ forall a, a ∈ added ->
         exists d,
           d ∈ ds
           /\ diag.summary a = bindings.Diagnostic.Summary d
           /\ diag.detail a = bindings.Diagnostic.Detail d
           /\ (diag.severity a = diag.SeverityError
                 /\ (bindings.Diagnostic.Severity d = "error"
                     \/ bindings.Diagnostic.Severity d = "Error")
               \/ diag.severity a = diag.SeverityWarning
                 /\ (bindings.Diagnostic.Severity d = "warning"
                     \/ bindings.Diagnostic.Severity d = "Warning")).
Proof.
  rewrite handleStartrailDiagnostics_each.
  destruct (Append_grows diags (concat (map (fun d => handleStartrailDiagnostics [d] []) ds)))
    as (added & Heq & Hlen & Hin).
  exists added. split; [exact Heq|]. split.
  - pose proof (each_length ds). lia.
  - intros a Ha. by apply each_origin, Hin.
Qed.

Lemma HasError_each (ds : list bindings.Diagnostic.t) :
  diag.HasError (concat (map (fun d => handleStartrailDiagnostics [d] []) ds))
  = existsb (fun d => (bindings.Diagnostic.Severity d =? "error")%string
                      || (bindings.Diagnostic.Severity d =? "Error")%string) ds.
Proof.
  unfold diag.HasError.
  induction ds as [|d ds IH]; [done|].
  cbn [map concat existsb]. rewrite existsb_app, IH. f_equal.
  cbn [handleStartrailDiagnostics].
  destruct (_ || _); [done|].
  destruct (_ || _); done.
Qed.

(** X2. After the translation the diagnostics hold an error exactly when
    they held one before or some remote item has severity "error" or
    "Error"; warnings and items of other severities never make one. *)
Theorem handleStartrailDiagnostics_HasError
    (ds : list bindings.Diagnostic.t) (diags : diag.Diagnostics) :
  diag.HasError (handleStartrailDiagnostics ds diags)
  = diag.HasError diags
    || existsb (fun d => (bindings.Diagnostic.Severity d =? "error")%string
                         || (bindings.Diagnostic.Severity d =? "Error")%string) ds.
Proof.
  by rewrite handleStartrailDiagnostics_each, HasError_Append, HasError_each.
Qed.

(** ** Outcomes of [post] and of the lifecycle methods *)

Lemma parseServiceResponse_diags (startrailResponse : option bindings.ServiceResponse.t) :
  (parseServiceResponse startrailResponse).2 = [].
Proof. by rewrite parseServiceResponse_eq. Qed.

(** X3. [post] fails exactly when the client call returned an error, or a
    remote item has severity "error" or "Error", or the status code is not
    200. When it fails it returns the zero model; when it succeeds it
    returns the model read from the response and no diagnostics at all,
    so that warnings the remote sent with a successful answer are not
    passed on. *)
Theorem post_outcome (r : ServiceResource.t) (data : ServiceModel.t) (w : Remote.t) :
  let execute := Remote.respond w (Remote.calls w) (ServiceAPI_Create (post_service r data)) in
  let failed :=
    match Execution.err execute with
    | Some _ => true
    | None =>
        existsb (fun d => (bindings.Diagnostic.Severity d =? "error")%string
                          || (bindings.Diagnostic.Severity d =? "Error")%string)
          (bindings.ServiceResponse.GetDiagnostics (Execution.startrailResponse execute))
        || negb (Execution.StatusCode execute =? 200)
    end in
  diag.HasError (post r data w).1.2 = failed
  /\ (post r data w).1.1
     = (if failed then ServiceModel.zero
        else (parseServiceResponse (Execution.startrailResponse execute)).1)
  /\ (if failed then True else (post r data w).1.2 = []).
Proof.
  intros execute failed. subst failed. unfold post, Remote.Execute. fold execute.
  destruct (Execution.err execute).
  { split; [apply HasError_AddError|done]. }
  set (ds := bindings.ServiceResponse.GetDiagnostics (Execution.startrailResponse execute)).
  assert (HE : diag.HasError (handleStartrailDiagnostics ds [])
               = existsb (fun d => (bindings.Diagnostic.Severity d =? "error")%string
                                   || (bindings.Diagnostic.Severity d =? "Error")%string) ds).
  { by rewrite handleStartrailDiagnostics_each, HasError_Append, HasError_each. }
  rewrite <- HE.
  destruct (diag.HasError (handleStartrailDiagnostics ds [])) eqn:Hdiag; [done|].
  destruct (Execution.StatusCode execute =? 200) eqn:Hstatus; cbn [negb orb].
  - pose proof (parseServiceResponse_diags (Execution.startrailResponse execute)) as Hd.
    destruct (parseServiceResponse _) as [data' diags']. simpl in *. by subst diags'.
  - split; [apply HasError_AddError|done].
Qed.

(** [post] returns either the zero model with an error, or the parsed
    response with no diagnostics. *)
Lemma post_remote_or_parsed (r : ServiceResource.t) (data : ServiceModel.t) (w : Remote.t) :
  let execute := Remote.respond w (Remote.calls w) (ServiceAPI_Create (post_service r data)) in
  (post r data w).1.1 = ServiceModel.zero /\ diag.HasError (post r data w).1.2 = true
  \/ (post r data w).1.1 = (parseServiceResponse (Execution.startrailResponse execute)).1
     /\ (post r data w).1.2 = [].
Proof.
  intros execute. unfold post, Remote.Execute. fold execute.
  destruct (Execution.err execute).
  { left. split; [done|apply HasError_AddError]. }
  destruct (diag.HasError (handleStartrailDiagnostics _ _)) eqn:Hdiag.
  { left. by split. }
  destruct (negb _).
  { left. split; [done|apply HasError_AddError]. }
  right.
  pose proof (parseServiceResponse_diags (Execution.startrailResponse execute)) as Hd.
  destruct (parseServiceResponse _) as [data' diags']. simpl in *. by subst diags'.
Qed.

(** X4. [Update] either ends with an error and leaves the state exactly as
    it was, or ends without one and stores the model read from the
    remote's answer: the plan itself is never stored. *)
Theorem Update_all_or_nothing (r : ServiceResource.t) (req : Decoded.t) (resp : Response.t)
    (w : Remote.t) :
  let execute :=
    Remote.respond w (Remote.calls w) (ServiceAPI_Create (post_service r (Decoded.data req))) in
  Response.State (Update r req resp w).1
  = if diag.HasError (Response.Diagnostics (Update r req resp w).1) then Response.State resp
    else Some (parseServiceResponse (Execution.startrailResponse execute)).1.
Proof.
  intros execute. unfold Update.
  destruct (diag.HasError (Response.Diagnostics (Response.Diagnostics_Append resp _))) eqn:Hdec.
  { cbn [fst]. by rewrite Hdec. }
  destruct (post_remote_or_parsed r (Decoded.data req) w) as [[Hz Herr]|[Hp Hd]].
  - destruct (post r (Decoded.data req) w) as [[data' diags'] w']. simpl in Herr.
    assert (Hall : diag.HasError
                     (Response.Diagnostics
                        (Response.Diagnostics_Append
                           (Response.Diagnostics_Append resp (Decoded.diags req)) diags'))
                   = true).
    { simpl. by apply HasError_Append_r. }
    rewrite Hall. cbn [fst]. by rewrite Hall.
  - fold execute in Hp.
    destruct (post r (Decoded.data req) w) as [[data' diags'] w']. simpl in Hp, Hd.
    subst diags' data'. simpl in *. rewrite Hdec. simpl. by rewrite Hdec.
Qed.

(** Reduce the projections of a response that a method has just built. *)
Ltac response_simpl :=
  cbn [fst snd orb Response.Diagnostics Response.State Response.Diagnostics_Append
       Response.Diagnostics_AddError].

Lemma Read_state (client : StartrailProviderClient.t) (req : Decoded.t) (resp : Response.t)
    (w : Remote.t) :
  let execute :=
    Remote.respond w (Remote.calls w)
      (ServiceAPI_Get (StartrailProviderClient.Tenant client)
         (resolveEnvironment client (Decoded.data req))
         (types.ValueString (ServiceModel.Name (Decoded.data req)))) in
  let result := (Read (ServiceResource.mk client) req resp w).1 in
  Response.State result
  = if diag.HasError (Response.Diagnostics result) then Response.State resp
    else Some (parseServiceResponse (Execution.startrailResponse execute)).1.
Proof.
  intros execute result. subst result. unfold Read, Remote.Execute.
  cbn [ServiceResource.client]. fold execute.
  destruct (diag.HasError (Response.Diagnostics (Response.Diagnostics_Append resp _))) eqn:Hdec.
  { cbn [fst]. by rewrite Hdec. }
  destruct (Execution.err execute).
  { cbn [fst Response.Diagnostics_AddError Response.Diagnostics Response.State].
    by rewrite HasError_AddError. }
  destruct (diag.HasError (Response.Diagnostics (Response.mk _ _))) eqn:Hdiag.
  { cbn [fst]. by rewrite Hdiag. }
  destruct (negb _).
  { cbn [fst Response.Diagnostics_AddError Response.Diagnostics Response.State].
    by rewrite HasError_AddError. }
  pose proof (parseServiceResponse_diags (Execution.startrailResponse execute)) as Hd.
  destruct (parseServiceResponse _) as [data' diags']. simpl in Hd. subst diags'.
  simpl in *. by rewrite Hdiag.
Qed.

(** X5. [Read], of the resource and of the data source alike, either ends
    with an error and leaves the state exactly as it was, or ends without
    one and replaces the state by the model read from the remote's
    answer. *)
Theorem Read_all_or_nothing (client : StartrailProviderClient.t) (req : Decoded.t)
    (resp : Response.t) (w : Remote.t) :
  let execute :=
    Remote.respond w (Remote.calls w)
      (ServiceAPI_Get (StartrailProviderClient.Tenant client)
         (resolveEnvironment client (Decoded.data req))
         (types.ValueString (ServiceModel.Name (Decoded.data req)))) in
  let read := (Read (ServiceResource.mk client) req resp w).1 in
  let dataRead := (DataSource_Read (ServiceDataSource.mk client) req resp w).1 in
  Response.State read
    = (if diag.HasError (Response.Diagnostics read) then Response.State resp
       else Some (parseServiceResponse (Execution.startrailResponse execute)).1)
  /\ Response.State dataRead
    = (if diag.HasError (Response.Diagnostics dataRead) then Response.State resp
       else Some (parseServiceResponse (Execution.startrailResponse execute)).1).
Proof.
  intros execute read dataRead. split; [apply Read_state|].
  change dataRead with (Read (ServiceResource.mk client) req resp w).1.
  apply Read_state.
Qed.

(** X6. [Delete] never touches the state, whatever the remote answers; it
    ends with an error exactly when the state could not be decoded, the
    client call returned an error, a remote item has severity "error" or
    "Error", or the status code is not 200. *)
Theorem Delete_outcome (r : ServiceResource.t) (req : Decoded.t) (resp : Response.t)
    (w : Remote.t) :
  let client := ServiceResource.client r in
  let execute :=
    Remote.respond w (Remote.calls w)
      (ServiceAPI_Delete (StartrailProviderClient.Tenant client)
         (resolveEnvironment client (Decoded.data req))
         (types.ValueString (ServiceModel.Name (Decoded.data req)))) in
  let decoded := diag.Append (Response.Diagnostics resp) (Decoded.diags req) in
  Response.State (Delete r req resp w).1 = Response.State resp
  /\ diag.HasError (Response.Diagnostics (Delete r req resp w).1)
     = diag.HasError decoded
       || match Execution.err execute with
          | Some _ => true
          | None =>
              existsb (fun d => (bindings.Diagnostic.Severity d =? "error")%string
                                || (bindings.Diagnostic.Severity d =? "Error")%string)
                (bindings.ServiceResponse.GetDiagnostics (Execution.startrailResponse execute))
              || negb (Execution.StatusCode execute =? 200)
          end.
Proof.
  intros client execute decoded. unfold Delete, Remote.Execute. fold client. fold execute.
  response_simpl. fold decoded.
  destruct (diag.HasError decoded) eqn:Hdec.
  { response_simpl. fold decoded. by rewrite Hdec. }
  cbn [orb].
  destruct (Execution.err execute).
  { response_simpl. by rewrite HasError_AddError. }
  rewrite handleStartrailDiagnostics_each, HasError_Append, HasError_each, Hdec.
  cbn [orb].
  destruct (existsb _ _) eqn:Hdiag.
  { response_simpl. by rewrite HasError_Append, HasError_each, Hdec, Hdiag. }
  destruct (negb _); response_simpl.
  - by rewrite HasError_AddError.
  - by rewrite HasError_Append, HasError_each, Hdec, Hdiag.
Qed.

(** X7. Every lifecycle method makes exactly one call to the remote API
    when its plan, state or configuration could be decoded, and none when
    it could not: [Create] and [Update] send the document [post] builds,
    [Read] and the data source's [Read] ask Get, and [Delete] asks Delete,
    for the provider's tenant, the resolved environment and the name. *)
Theorem lifecycle_calls (client : StartrailProviderClient.t) (req : Decoded.t)
    (resp : Response.t) (w : Remote.t) :
  let r := ServiceResource.mk client in
  let data := Decoded.data req in
  let tenant := StartrailProviderClient.Tenant client in
  let environment := resolveEnvironment client data in
  let name := types.ValueString (ServiceModel.Name data) in
  let after (c : Call) :=
    Remote.calls w
    ++ (if diag.HasError (diag.Append (Response.Diagnostics resp) (Decoded.diags req))
        then [] else [c]) in
  Remote.calls (Create r req resp w).2 = after (ServiceAPI_Create (post_service r data))
  /\ Remote.calls (Update r req resp w).2 = after (ServiceAPI_Create (post_service r data))
  /\ Remote.calls (Read r req resp w).2 = after (ServiceAPI_Get tenant environment name)
  /\ Remote.calls (Delete r req resp w).2 = after (ServiceAPI_Delete tenant environment name)
  /\ Remote.calls (DataSource_Read (ServiceDataSource.mk client) req resp w).2
     = after (ServiceAPI_Get tenant environment name).
Proof.
  intros r data tenant environment name after. subst after. cbn beta.
  destruct (diag.HasError (diag.Append _ _)) eqn:Hdec.
  - destruct (no_call_after_decode_error r req resp w Hdec) as (-> & -> & -> & ->).
    rewrite app_nil_r. repeat split.
    unfold DataSource_Read. response_simpl. by rewrite Hdec.
  - rewrite Create_calls, Update_calls, Read_calls, Delete_calls, DataSource_Read_calls
      by exact Hdec.
    done.
Qed.

(** X8. [Read] consults nothing of the prior state but the name and the
    environment: two prior states that agree on these two values lead to
    the same call, the same diagnostics and the same new state. *)
Theorem Read_uses_name_and_environment_only (r : ServiceResource.t)
    (data1 data2 : ServiceModel.t) (decodeDiags : list diag.Diagnostic)
    (resp : Response.t) (w : Remote.t) :
  types.ValueString (ServiceModel.Name data1) = types.ValueString (ServiceModel.Name data2) ->
  types.ValueString (ServiceModel.Environment data1)
  = types.ValueString (ServiceModel.Environment data2) ->
  Read r (Decoded.mk data1 decodeDiags) resp w = Read r (Decoded.mk data2 decodeDiags) resp w.
Proof.
  intros Hname Henv. unfold Read, resolveEnvironment.
  cbn [Decoded.data Decoded.diags]. by rewrite Hname, Henv.
Qed.

Lemma Read_uses_name_and_environment_only_witness :
  let r := ServiceResource.mk
             (StartrailProviderClient.mk (APIClient.mk "http://localhost:8000" "ua" "apiKey k" false)
                "acme" "staging") in
  let service :=
    bindings.Service.mk "hello-world" "fresh description" "" "prod" "acme"
      (Some true) [] bindings.NullableMetadata.zero ∅ ∅ in
  let w := Remote.mk (fun _ _ => Execution.mk (Some (bindings.ServiceResponse.mk [] service))
                                   200 "" None) [] in
  let stale := ServiceModel.mk (types.StringValue "stale") []
                 (types.StringValue "old description") (types.BoolValue false)
                 (types.StringValue "prod") [] None
                 (types.StringValue "hello-world") (types.StringValue "old remarks") [] in
  let bare := ServiceModel.mk types.StringNull [] types.StringNull types.BoolNull
                (types.StringValue "prod") [] None
                (types.StringValue "hello-world") types.StringNull [] in
  Read r (Decoded.mk stale []) (Response.mk [] None) w
  = Read r (Decoded.mk bare []) (Response.mk [] None) w.
Proof.
  intros r service w stale bare.
  apply (Read_uses_name_and_environment_only r stale bare [] (Response.mk [] None) w);
    reflexivity.
Defined.

(** X9. Importing stores the identifier under [id] and nothing else, and
    the [Read] that follows an import into a fresh state never looks at
    it: whatever the identifier, it asks Get for the provider's tenant,
    the provider's default environment and the empty name. *)
Theorem ImportState_then_Read (r : ServiceResource.t) (ID : string) (w : Remote.t) :
  let client := ServiceResource.client r in
  let imported := ImportState ID (Response.mk [] None) in
  exists state,
    Response.State imported = Some state
    /\ ServiceModel.Id state = types.StringValue ID
    /\ ServiceModel.Name state = types.StringNull
    /\ ServiceModel.Environment state = types.StringNull
    /\ Remote.calls (Read r (Decoded.mk state []) imported w).2
       = Remote.calls w
         ++ [ServiceAPI_Get (StartrailProviderClient.Tenant client)
               (StartrailProviderClient.Environment client) ""].
Proof.
  intros client imported. eexists. split; [reflexivity|].
  repeat split. by rewrite Read_calls.
Qed.

Lemma each_warning (ds : list bindings.Diagnostic.t) (d : bindings.Diagnostic.t) :
  d ∈ ds ->
  bindings.Diagnostic.Severity d = "warning" \/ bindings.Diagnostic.Severity d = "Warning" ->
  diag.NewWarningDiagnostic (bindings.Diagnostic.Summary d) (bindings.Diagnostic.Detail d)
  ∈ concat (map (fun d => handleStartrailDiagnostics [d] []) ds).
Proof.
  intros Hin Hw. induction ds as [|x ds IH]; [by apply elem_of_nil in Hin|].
  cbn [map concat]. apply elem_of_app.
  apply elem_of_cons in Hin as [<-|Hin]; [left|right; by apply IH].
  cbn [handleStartrailDiagnostics]. by destruct Hw as [-> | ->]; left.
Qed.

(** X10. A [Read] that ends without an error passes on every warning of
    the remote's answer: each item of severity "warning" or "Warning" is
    among the diagnostics the caller gets, as a warning with its summary
    and detail. *)
Theorem Read_passes_remote_warnings (r : ServiceResource.t) (req : Decoded.t)
    (resp : Response.t) (w : Remote.t) (d : bindings.Diagnostic.t) :
  let client := ServiceResource.client r in
  let execute :=
    Remote.respond w (Remote.calls w)
      (ServiceAPI_Get (StartrailProviderClient.Tenant client)
         (resolveEnvironment client (Decoded.data req))
         (types.ValueString (ServiceModel.Name (Decoded.data req)))) in
  diag.HasError (Response.Diagnostics (Read r req resp w).1) = false ->
  d ∈ bindings.ServiceResponse.GetDiagnostics (Execution.startrailResponse execute) ->
  bindings.Diagnostic.Severity d = "warning" \/ bindings.Diagnostic.Severity d = "Warning" ->
  diag.NewWarningDiagnostic (bindings.Diagnostic.Summary d) (bindings.Diagnostic.Detail d)
  ∈ Response.Diagnostics (Read r req resp w).1.
Proof.
  intros client execute. unfold Read, Remote.Execute. fold client. fold execute.
  destruct (diag.HasError (Response.Diagnostics (Response.Diagnostics_Append resp _))) eqn:Hdec.
  { simpl in *. intros Hno. congruence. }
  destruct (Execution.err execute).
  { response_simpl. by rewrite HasError_AddError. }
  destruct (diag.HasError (Response.Diagnostics (Response.mk _ _))) eqn:Hdiag.
  { simpl in *. intros Hno. congruence. }
  destruct (negb _).
  { response_simpl. by rewrite HasError_AddError. }
  pose proof (parseServiceResponse_diags (Execution.startrailResponse execute)) as Hd.
  destruct (parseServiceResponse _) as [data' diags']. simpl in Hd. subst diags'.
  intros _ Hin Hw. simpl.
  rewrite handleStartrailDiagnostics_each. apply elem_of_Append. right.
  by apply each_warning.
Qed.

Lemma Read_passes_remote_warnings_witness :
  let r := ServiceResource.mk
             (StartrailProviderClient.mk (APIClient.mk "http://localhost:8000" "ua" "apiKey k" false)
                "acme" "staging") in
  let service :=
    bindings.Service.mk "hello-world" "" "" "prod" "acme" None []
      bindings.NullableMetadata.zero ∅ ∅ in
  let note := bindings.Diagnostic.mk "warning" "deprecated" "the field is deprecated" in
  let w := Remote.mk (fun _ _ => Execution.mk (Some (bindings.ServiceResponse.mk [note] service))
                                   200 "" None) [] in
  let prior := ServiceModel.mk types.StringNull [] types.StringNull types.BoolNull
                 (types.StringValue "prod") [] None
                 (types.StringValue "hello-world") types.StringNull [] in
  diag.NewWarningDiagnostic "deprecated" "the field is deprecated"
  ∈ Response.Diagnostics (Read r (Decoded.mk prior []) (Response.mk [] (Some prior)) w).1.
Proof.
  intros r service note w prior.
  apply (Read_passes_remote_warnings r (Decoded.mk prior []) (Response.mk [] (Some prior)) w note).
  - reflexivity.
  - apply list_elem_of_here.
  - left. reflexivity.
Defined.

(** X11. [Create] and [Update] that end without an error pass on nothing of
    what the remote said: their diagnostics are those of decoding the plan
    and no more, so a warning sent with a successful answer is not shown. *)
Theorem Update_passes_no_remote_diagnostics (r : ServiceResource.t) (req : Decoded.t)
    (resp : Response.t) (w : Remote.t) :
  let decoded := diag.Append (Response.Diagnostics resp) (Decoded.diags req) in
  diag.HasError (Response.Diagnostics (Update r req resp w).1) = false ->
  Response.Diagnostics (Update r req resp w).1 = decoded
  /\ Response.Diagnostics (Create r req resp w).1 = decoded.
Proof.
  intros decoded. unfold Update, Create.
  destruct (diag.HasError (Response.Diagnostics (Response.Diagnostics_Append resp _))) eqn:Hdec.
  { simpl in *. intros Hno. congruence. }
  destruct (post_remote_or_parsed r (Decoded.data req) w) as [[_ Herr]|[_ Hd]].
  - destruct (post r (Decoded.data req) w) as [[data' diags'] w']. simpl in Herr.
    assert (Hall : diag.HasError
                     (Response.Diagnostics
                        (Response.Diagnostics_Append
                           (Response.Diagnostics_Append resp (Decoded.diags req)) diags'))
                   = true).
    { simpl. by apply HasError_Append_r. }
    rewrite Hall. response_simpl. intros Hno. simpl in Hall. congruence.
  - destruct (post r (Decoded.data req) w) as [[data' diags'] w']. simpl in Hd. subst diags'.
    simpl. simpl in Hdec. by rewrite Hdec.
Qed.

Lemma Update_passes_no_remote_diagnostics_witness :
  let r := ServiceResource.mk
             (StartrailProviderClient.mk (APIClient.mk "http://localhost:8000" "ua" "apiKey k" false)
                "acme" "staging") in
  let service :=
    bindings.Service.mk "hello-world" "" "" "prod" "acme" None []
      bindings.NullableMetadata.zero ∅ ∅ in
  let note := bindings.Diagnostic.mk "warning" "deprecated" "the field is deprecated" in
  let w := Remote.mk (fun _ _ => Execution.mk (Some (bindings.ServiceResponse.mk [note] service))
                                   200 "" None) [] in
  let plan := ServiceModel.mk types.StringUnknown [] types.StringNull types.BoolUnknown
                (types.StringValue "prod") [] None
                (types.StringValue "hello-world") types.StringNull [] in
  Response.Diagnostics (Update r (Decoded.mk plan []) (Response.mk [] None) w).1 = []
  /\ Response.Diagnostics (Create r (Decoded.mk plan []) (Response.mk [] None) w).1 = [].
Proof.
  intros r service note w plan.
  apply (Update_passes_no_remote_diagnostics r (Decoded.mk plan []) (Response.mk [] None) w).
  reflexivity.
Defined.

(** ** The to-domain mapping *)

Section InsertLoopKeys.

Context {A B : Type} (key : A -> string) (val : A -> B).

Lemma loop_lookup_is_Some (xs : list A) (m : gmap string B) (k : string) :
  is_Some (fold_left (fun m x => <[key x := val x]> m) xs m !! k)
  <-> is_Some (m !! k) \/ exists x, x ∈ xs /\ key x = k.
Proof.
  revert m. induction xs as [|x xs IH]; intros m; simpl.
  - split; [by left|]. intros [H|(x & Hx & _)]; [done|by apply elem_of_nil in Hx].
  - rewrite IH, lookup_insert_is_Some. split.
    + intros [[Heq|[_ Hm]]|(y & Hy & Hk)].
      * right. exists x. split; [by left|done].
      * by left.
      * right. exists y. split; [by right|done].
    + intros [Hm|(y & Hy & Hk)].
      * destruct (decide (key x = k)) as [Heq|Hne]; left; [by left|by right].
      * apply elem_of_cons in Hy as [->|Hy]; [left; by left|].
        right. by exists y.
  Qed.

Lemma loop_size_distinct (xs : list A) (m : gmap string B) :
  NoDup (map key xs) ->
  (forall x, x ∈ xs -> m !! key x = None) ->
  size (fold_left (fun m x => <[key x := val x]> m) xs m) = (size m + length xs)%nat.
Proof.
  revert m. induction xs as [|x xs IH]; intros m Hnd Hfresh; simpl; [lia|].
  apply NoDup_cons in Hnd as [Hx Hnd].
  rewrite IH.
  - rewrite map_size_insert_None; [lia|]. apply Hfresh. by left.
  - exact Hnd.
  - intros y Hy. rewrite lookup_insert_ne; [apply Hfresh; by right|].
    intros Heq. apply Hx. rewrite Heq. apply list_elem_of_fmap. by exists y.
Qed.

Lemma loop_lookup_distinct (xs : list A) (m : gmap string B) (x : A) :
  NoDup (map key xs) -> x ∈ xs ->
  fold_left (fun m x => <[key x := val x]> m) xs m !! key x = Some (val x).
Proof.
  intros Hnd Hin.
  apply list_elem_of_split in Hin as (before & after & ->).
  apply loop_lookup_last. intros y Hy Heq.
  rewrite map_app in Hnd. apply NoDup_app in Hnd as (_ & _ & Hnd).
  cbn [map] in Hnd. apply NoDup_cons in Hnd as [Hx _].
  apply Hx. rewrite <- Heq. apply list_elem_of_fmap. by exists y.
Qed.

End InsertLoopKeys.

(** X12. The access rules are sent in the order of the plan, one for one: a
    plan without access rules sends none, and the i-th rule sent is made of
    the i-th rule of the plan, a null or unknown flag counting as false and
    a null or unknown endpoint as the empty string. *)
Theorem post_service_access_in_order (r : ServiceResource.t) (data : ServiceModel.t) :
  length (bindings.Service.Access (post_service r data)) = length (ServiceModel.Access data)
  /\ forall (i : nat),
       bindings.Service.Access (post_service r data) !! i
       = (fun a => bindings.Access.mk
                     (types.ValueBool (ServiceResourceModelAccess.Auth a))
                     (types.ValueString (ServiceResourceModelAccess.Endpoint a))
                     (types.ValueBool (ServiceResourceModelAccess.Internal a)))
         <$> ServiceModel.Access data !! i.
Proof.
  unfold post_service. cbn [bindings.Service.Access].
  rewrite append_loop_map. cbn [app]. split.
  - apply length_map.
  - intros i. apply list_lookup_fmap.
Qed.

(** X13. The Logging and Source maps sent hold a key exactly when some
    entry of the plan bears it as its [source]: no key is invented and no
    entry's key is missing. *)
Theorem post_service_keys (r : ServiceResource.t) (data : ServiceModel.t) (k : string) :
  (is_Some (bindings.Service.Logging (post_service r data) !! k)
   <-> exists l, l ∈ ServiceModel.Logging data
                 /\ types.ValueString (ServiceResourceModelLogging.Source l) = k)
  /\ (is_Some (bindings.Service.Sources (post_service r data) !! k)
      <-> exists s, s ∈ ServiceModel.Sources data
                    /\ types.ValueString (ServiceResourceM0delSource.Source s) = k).
Proof.
  unfold post_service. cbn [bindings.Service.Logging bindings.Service.Sources]. split.
  - rewrite (loop_lookup_is_Some
               (fun l => types.ValueString (ServiceResourceModelLogging.Source l))
               (fun l => bindings.Logging.mk
                           (types.ElementsAs (ServiceResourceModelLogging.Labels l)))).
    rewrite lookup_empty. split; [intros [[? ?]|H]; done|by right].
  - rewrite (loop_lookup_is_Some
               (fun s => types.ValueString (ServiceResourceM0delSource.Source s))
               (fun s => bindings.Source.mk
                           (types.ElementsAs (ServiceResourceM0delSource.Labels s)))).
    rewrite lookup_empty. split; [intros [[? ?]|H]; done|by right].
Qed.

(** X14. When the [source] values of the plan's Logging entries are
    pairwise distinct, nothing is lost on the way to the map: it has as
    many keys as the plan has entries, and every entry is bound under its
    [source] to its own labels. *)
Theorem post_service_distinct_logging (r : ServiceResource.t) (data : ServiceModel.t) :
  NoDup (map (fun l => types.ValueString (ServiceResourceModelLogging.Source l))
           (ServiceModel.Logging data)) ->
  size (bindings.Service.Logging (post_service r data)) = length (ServiceModel.Logging data)
  /\ forall l, l ∈ ServiceModel.Logging data ->
       bindings.Service.Logging (post_service r data)
         !! types.ValueString (ServiceResourceModelLogging.Source l)
       = Some (bindings.Logging.mk (types.ElementsAs (ServiceResourceModelLogging.Labels l))).
Proof.
  intros Hnd. unfold post_service. cbn [bindings.Service.Logging]. split.
  - rewrite (loop_size_distinct
               (fun l => types.ValueString (ServiceResourceModelLogging.Source l))
               (fun l => bindings.Logging.mk
                           (types.ElementsAs (ServiceResourceModelLogging.Labels l))));
      [by rewrite map_size_empty|exact Hnd|].
    intros x _. apply lookup_empty.
  - intros l Hl.
    by apply (loop_lookup_distinct
                (fun l => types.ValueString (ServiceResourceModelLogging.Source l))
                (fun l => bindings.Logging.mk
                            (types.ElementsAs (ServiceResourceModelLogging.Labels l)))).
Qed.

Lemma post_service_distinct_logging_witness :
  let r := ServiceResource.mk
             (StartrailProviderClient.mk (APIClient.mk "http://localhost:8000" "ua" "apiKey k" false)
                "default" "staging") in
  let app := ServiceResourceModelLogging.mk
               (types.MapValue {["level" := types.StringValue "debug"]})
               (types.StringValue "app") in
  let db := ServiceResourceModelLogging.mk types.MapNull (types.StringValue "db") in
  let data := ServiceModel.mk types.StringUnknown [] types.StringNull types.BoolUnknown
                (types.StringValue "prod") [app; db] None
                (types.StringValue "hello-world") types.StringNull [] in
  size (bindings.Service.Logging (post_service r data)) = 2%nat.
Proof.
  intros r app db data.
  apply (post_service_distinct_logging r data).
  apply NoDup_cons. split; [|apply NoDup_singleton].
  intros H. apply list_elem_of_singleton in H. discriminate.
Defined.

(** ** The from-domain mapping *)

(** X15. The model read from a response is fully known: reading never
    reports a diagnostic, the id, name, description, remarks and
    environment are known strings and [disabled] a known flag, every access
    rule has known fields, and every Logging and Source entry has a known
    [source] and known labels. *)
Theorem parseServiceResponse_all_known (startrailResponse : option bindings.ServiceResponse.t) :
  let data := (parseServiceResponse startrailResponse).1 in
  let known (v : types.String) := exists s, v = types.StringValue s in
  let knownFlag (v : types.Bool) := exists b, v = types.BoolValue b in
  let knownLabels (m : types.Map) :=
    exists elements,
      m = types.MapValue elements /\ forall k v, elements !! k = Some v -> known v in
  (parseServiceResponse startrailResponse).2 = []
  /\ known (ServiceModel.Id data) /\ known (ServiceModel.Name data)
  /\ known (ServiceModel.Description data) /\ known (ServiceModel.Remarks data)
  /\ known (ServiceModel.Environment data) /\ knownFlag (ServiceModel.Disabled data)
  /\ (forall a, a ∈ ServiceModel.Access data ->
        knownFlag (ServiceResourceModelAccess.Auth a)
        /\ known (ServiceResourceModelAccess.Endpoint a)
        /\ knownFlag (ServiceResourceModelAccess.Internal a))
  /\ (forall l, l ∈ ServiceModel.Logging data ->
        known (ServiceResourceModelLogging.Source l)
        /\ knownLabels (ServiceResourceModelLogging.Labels l))
  /\ (forall s, s ∈ ServiceModel.Sources data ->
        known (ServiceResourceM0delSource.Source s)
        /\ knownLabels (ServiceResourceM0delSource.Labels s))
  /\ (forall md, ServiceModel.Metadata data = Some md ->
        knownLabels (ServiceResourceModelMetadata.Labels md)).
Proof.
  intros data known knownFlag knownLabels. subst data.
  assert (Hlabels : forall ls : gmap string string,
            knownLabels (types.MapValue (types.StringValue <$> ls))).
  { intros ls. eexists. split; [reflexivity|].
    intros k v Hk. apply lookup_fmap_Some in Hk as (x & <- & _). by eexists. }
  rewrite parseServiceResponse_eq. cbn [fst snd].
  split; [done|].
  cbn [ServiceModel.Id ServiceModel.Name ServiceModel.Description ServiceModel.Remarks
       ServiceModel.Environment ServiceModel.Disabled ServiceModel.Access
       ServiceModel.Logging ServiceModel.Sources ServiceModel.Metadata].
  repeat (split; [by eexists|]).
  split; [|split; [|split]].
  - intros a Ha. apply list_elem_of_fmap in Ha as (x & -> & _).
    repeat split; by eexists.
  - intros l Hl. apply list_elem_of_fmap in Hl as ([k v] & -> & _).
    split; [by eexists|apply Hlabels].
  - intros s Hs. apply list_elem_of_fmap in Hs as ([k v] & -> & _).
    split; [by eexists|apply Hlabels].
  - intros md Hmd. destruct (bindings.Service.HasMetadata _); [|done].
    destruct (bindings.Metadata.GetLabels _) as [ls|]; [|done].
    simpl in Hmd. injection Hmd as <-. apply Hlabels.
Qed.

Section Entries.

Context {V E : Type} (mkE : types.Map -> types.String -> E) (srcE : E -> types.String)
  (labelsOf : V -> gmap string string).
Hypothesis srcE_mkE : forall labels source, srcE (mkE labels source) = source.
Hypothesis mkE_inj :
  forall a b a' b', mkE a b = mkE a' b' -> a = a' /\ b = b'.
Hypothesis labelsOf_inj : forall v v', labelsOf v = labelsOf v' -> v = v'.

(** The list [parseServiceResponse] makes of a map of the response
    (written here as in its closed form). *)
Lemma entries_of_map (m : gmap string V) :
  let entries :=
    map (fun '(k, v) => mkE (types.MapValue (types.StringValue <$> labelsOf v))
                            (types.StringValue k))
        (map_to_list m) in
  NoDup (map srcE entries)
  /\ length entries = size m
  /\ forall k v,
       mkE (types.MapValue (types.StringValue <$> labelsOf v)) (types.StringValue k) ∈ entries
       <-> m !! k = Some v.
Proof.
  intros entries. subst entries. split; [|split].
  - rewrite map_map.
    rewrite (map_ext _ (fun e : string * V => types.StringValue e.1)).
    2:{ intros [k v]. apply srcE_mkE. }
    replace (map (fun e : string * V => types.StringValue e.1) (map_to_list m))
      with (types.StringValue <$> (map_to_list m).*1)
      by (by rewrite <- list_fmap_compose).
    apply NoDup_fmap_2; [by intros a b [= ->]|apply NoDup_fst_map_to_list].
  - rewrite length_map. apply length_map_to_list.
  - intros k v. rewrite <- elem_of_map_to_list. split.
    + intros H. apply list_elem_of_fmap in H as ([k' v'] & Heq & Hin).
      apply mkE_inj in Heq as [Hl Hk]. injection Hk as ->. injection Hl as Hl.
      apply (f_equal (fmap types.ValueString)) in Hl.
      rewrite !fmap_ValueString_StringValue in Hl.
      apply labelsOf_inj in Hl. by subst v'.
    + intros H. apply list_elem_of_fmap. by exists (k, v).
Qed.

End Entries.

(** X16. Reading a response yields one Logging entry and one Source entry
    per key of the response's maps: the [source] values of the entries are
    pairwise distinct, there are as many entries as keys, and an entry
    with a given [source] and labels is in the list exactly when the map
    binds that key to those labels. *)
Theorem parseServiceResponse_one_entry_per_key
    (startrailResponse : option bindings.ServiceResponse.t) :
  let s := bindings.ServiceResponse.GetResponse startrailResponse in
  let data := (parseServiceResponse startrailResponse).1 in
  (NoDup (map ServiceResourceModelLogging.Source (ServiceModel.Logging data))
   /\ length (ServiceModel.Logging data) = size (bindings.Service.Logging s)
   /\ forall k labels,
        ServiceResourceModelLogging.mk (types.MapValue (types.StringValue <$> labels))
          (types.StringValue k) ∈ ServiceModel.Logging data
        <-> bindings.Service.Logging s !! k = Some (bindings.Logging.mk labels))
  /\
  (NoDup (map ServiceResourceM0delSource.Source (ServiceModel.Sources data))
   /\ length (ServiceModel.Sources data) = size (bindings.Service.Sources s)
   /\ forall k labels,
        ServiceResourceM0delSource.mk (types.MapValue (types.StringValue <$> labels))
          (types.StringValue k) ∈ ServiceModel.Sources data
        <-> bindings.Service.Sources s !! k = Some (bindings.Source.mk labels)).
Proof.
  intros s data. subst data. rewrite parseServiceResponse_eq. fold s.
  cbn [fst ServiceModel.Logging ServiceModel.Sources]. split.
  - destruct (entries_of_map ServiceResourceModelLogging.mk ServiceResourceModelLogging.Source
                bindings.Logging.Labels) with (m := bindings.Service.Logging s)
      as (Hnd & Hlen & Hin).
    + done.
    + by intros a b a' b' [= -> ->].
    + by intros [a] [b] [= ->].
    + split; [exact Hnd|]. split; [exact Hlen|].
      intros k labels. apply (Hin k (bindings.Logging.mk labels)).
  - destruct (entries_of_map ServiceResourceM0delSource.mk ServiceResourceM0delSource.Source
                bindings.Source.Labels) with (m := bindings.Service.Sources s)
      as (Hnd & Hlen & Hin).
    + done.
    + by intros a b a' b' [= -> ->].
    + by intros [a] [b] [= ->].
    + split; [exact Hnd|]. split; [exact Hlen|].
      intros k labels. apply (Hin k (bindings.Source.mk labels)).
Qed.

(** X17. The metadata block of the model read is absent exactly when the
    response has no metadata set or has metadata without a labels map; a
    response whose metadata has a labels map, even an empty one, yields a
    block, and the block's labels are those of the response. *)
Theorem parseServiceResponse_metadata
    (startrailResponse : option bindings.ServiceResponse.t) :
  let s := bindings.ServiceResponse.GetResponse startrailResponse in
  let data := (parseServiceResponse startrailResponse).1 in
  (ServiceModel.Metadata data = None
   <-> bindings.Service.HasMetadata s = false
       \/ bindings.Metadata.GetLabels (bindings.Service.GetMetadata s) = None)
  /\ (forall md,
        ServiceModel.Metadata data = Some md ->
        bindings.Metadata.GetLabels (bindings.Service.GetMetadata s)
        = Some (types.ElementsAs (ServiceResourceModelMetadata.Labels md)))
  /\ (bindings.Service.HasMetadata s = true ->
      bindings.Metadata.GetLabels (bindings.Service.GetMetadata s) = Some ∅ ->
      ServiceModel.Metadata data
      = Some (ServiceResourceModelMetadata.mk (types.MapValue ∅))).
Proof.
  intros s data. subst data. rewrite parseServiceResponse_eq. fold s.
  cbn [fst ServiceModel.Metadata].
  destruct (bindings.Service.HasMetadata s);
    destruct (bindings.Metadata.GetLabels (bindings.Service.GetMetadata s)) as [ls|];
    simpl; (split; [|split]); try done; try tauto.
  - split; [done|]. by intros [?|?].
  - intros md [= <-]. simpl. by rewrite fmap_ValueString_StringValue.
  - intros _ [= ->]. by rewrite fmap_empty.
Qed.

Lemma parseServiceResponse_metadata_witness :
  let service :=
    bindings.Service.mk "hello-world" "" "" "prod" "acme" None []
      (bindings.NullableMetadata.mk (Some (bindings.Metadata.mk (Some ∅))) true) ∅ ∅ in
  ServiceModel.Metadata
    (parseServiceResponse (Some (bindings.ServiceResponse.mk [] service))).1
  = Some (ServiceResourceModelMetadata.mk (types.MapValue ∅)).
Proof.
  intros service.
  apply (parseServiceResponse_metadata (Some (bindings.ServiceResponse.mk [] service)));
    reflexivity.
Defined.

(** X18. Sending back what was read reproduces the remote's document. For
    any response, the document [post] builds from the model read from it
    has the response's name, description, remarks, access rules, Logging
    map and Source map; its environment is the response's (the provider's
    default when that is empty), its tenant the provider's, its [disabled]
    explicit, and its metadata unset. *)
Theorem read_then_post_reproduces (r : ServiceResource.t)
    (response : bindings.ServiceResponse.t) :
  let s := bindings.ServiceResponse.Response response in
  let client := ServiceResource.client r in
  post_service r (parseServiceResponse (Some response)).1
  = {| bindings.Service.Name := bindings.Service.Name s;
       bindings.Service.Description := bindings.Service.Description s;
       bindings.Service.Remarks := bindings.Service.Remarks s;
       bindings.Service.Environment :=
         if (bindings.Service.Environment s =? "")%string
         then StartrailProviderClient.Environment client
         else bindings.Service.Environment s;
       bindings.Service.Tenant := StartrailProviderClient.Tenant client;
       bindings.Service.Disabled := Some (bindings.Service.GetDisabled s);
       bindings.Service.Access := bindings.Service.Access s;
       bindings.Service.Metadata := bindings.NullableMetadata.zero;
       bindings.Service.Logging := bindings.Service.Logging s;
       bindings.Service.Sources := bindings.Service.Sources s |}.
Proof.
  intros s client. rewrite parseServiceResponse_eq.
  cbn [bindings.ServiceResponse.GetResponse fst]. fold s.
  unfold post_service, resolveEnvironment. fold client.
  cbn [ServiceModel.Name ServiceModel.Description ServiceModel.Remarks
       ServiceModel.Environment ServiceModel.Disabled ServiceModel.Access
       ServiceModel.Logging ServiceModel.Sources ServiceModel.Metadata
       types.ValueString types.ValueBoolPointer].
  f_equal.
  - rewrite append_loop_map, map_map. cbn [app].
    rewrite <- (map_id (bindings.Service.Access s)) at 2.
    apply map_ext. by intros [].
  - rewrite fold_left_map.
    erewrite fold_left_ext_fun; [rewrite (insert_loop_map_to_list id); apply map_fmap_id|].
    intros acc [k [labels]]. simpl. by rewrite fmap_ValueString_StringValue.
  - rewrite fold_left_map.
    erewrite fold_left_ext_fun; [rewrite (insert_loop_map_to_list id); apply map_fmap_id|].
    intros acc [k [labels]]. simpl. by rewrite fmap_ValueString_StringValue.
Qed.

(** ** Identifiers and the schema's name pattern *)

Lemma append_nil_l (s : string) : "" +:+ s = s.
Proof. reflexivity. Qed.

Lemma append_cons (c : ascii) (a s : string) : String c a +:+ s = String c (a +:+ s).
Proof. reflexivity. Qed.

Lemma append_assoc (a b c : string) : (a +:+ b) +:+ c = a +:+ b +:+ c.
Proof.
  induction a as [|x a IH]; [done|].
  by rewrite !append_cons, IH.
Qed.

Lemma allInNameClass_slash (a b : string) :
  allInNameClass (a +:+ "/" +:+ b) = false.
Proof.
  induction a as [|c a IH]; [done|].
  rewrite append_cons. cbn [allInNameClass]. rewrite IH. apply andb_false_r.
Qed.

Lemma split_at_last_slash (a a' n n' : string) :
  allInNameClass n = true -> allInNameClass n' = true ->
  a +:+ "/" +:+ n = a' +:+ "/" +:+ n' ->
  a = a' /\ n = n'.
Proof.
  intros Hn Hn'. revert a'. induction a as [|c a IH]; intros [|c' a'] Heq.
  - change (String "/" n = String "/" n') in Heq. by injection Heq.
  - change (String "/" n = String c' (a' +:+ "/" +:+ n')) in Heq.
    injection Heq as _ Heq. subst n.
    pose proof (allInNameClass_slash a' n') as Hs. congruence.
  - change (String c (a +:+ "/" +:+ n) = String "/" n') in Heq.
    injection Heq as _ Heq. subst n'.
    pose proof (allInNameClass_slash a n) as Hs. congruence.
  - change (String c (a +:+ "/" +:+ n) = String c' (a' +:+ "/" +:+ n')) in Heq.
    injection Heq as -> Heq.
    destruct (IH a' Heq) as [-> ->]. done.
Qed.

(** X19. Identifiers tell services apart. If the environment and the name
    of two responses match the schema's pattern for these attributes
    (lower-case letters, digits and dashes, at least one), the ids built
    from them are equal only if tenant, environment and name all are. *)
Theorem id_determines_service (response1 response2 : bindings.ServiceResponse.t) :
  let s1 := bindings.ServiceResponse.Response response1 in
  let s2 := bindings.ServiceResponse.Response response2 in
  nameRegexp_MatchString (bindings.Service.Environment s1) = true ->
  nameRegexp_MatchString (bindings.Service.Name s1) = true ->
  nameRegexp_MatchString (bindings.Service.Environment s2) = true ->
  nameRegexp_MatchString (bindings.Service.Name s2) = true ->
  ServiceModel.Id (parseServiceResponse (Some response1)).1
  = ServiceModel.Id (parseServiceResponse (Some response2)).1 ->
  bindings.Service.Tenant s1 = bindings.Service.Tenant s2
  /\ bindings.Service.Environment s1 = bindings.Service.Environment s2
  /\ bindings.Service.Name s1 = bindings.Service.Name s2.
Proof.
  intros s1 s2 He1 Hn1 He2 Hn2.
  rewrite !parseServiceResponse_eq.
  cbn [fst ServiceModel.Id bindings.ServiceResponse.GetResponse]. fold s1 s2.
  unfold nameRegexp_MatchString in *.
  apply andb_true_iff in He1 as [_ He1], Hn1 as [_ Hn1], He2 as [_ He2], Hn2 as [_ Hn2].
  intros [= Hid].
  rewrite <- (append_assoc (bindings.Service.Tenant s1) "/" _) in Hid.
  rewrite <- (append_assoc (bindings.Service.Tenant s2) "/" _) in Hid.
  rewrite <- (append_assoc (bindings.Service.Tenant s1 +:+ "/") _ _) in Hid.
  rewrite <- (append_assoc (bindings.Service.Tenant s2 +:+ "/") _ _) in Hid.
  apply split_at_last_slash in Hid as [Hid ->]; [|done..].
  rewrite !append_assoc in Hid.
  apply split_at_last_slash in Hid as [-> ->]; done.
Qed.

Lemma id_determines_service_witness :
  let service :=
    bindings.Service.mk "hello-world" "" "" "prod" "acme" None []
      bindings.NullableMetadata.zero ∅ ∅ in
  let other :=
    bindings.Service.mk "hello-world" "another description" "" "prod" "acme" (Some true) []
      bindings.NullableMetadata.zero ∅ ∅ in
  bindings.Service.Tenant service = bindings.Service.Tenant other
  /\ bindings.Service.Environment service = bindings.Service.Environment other
  /\ bindings.Service.Name service = bindings.Service.Name other.
Proof.
  intros service other.
  apply (id_determines_service (bindings.ServiceResponse.mk [] service)
           (bindings.ServiceResponse.mk [] other)); reflexivity.
Defined.

(** ** Provider configuration, continued *)

Lemma deviceFlow_keeps_client (p : StartrailProvider.t) (u : string)
    (data : StartrailProviderModel.t) (resp resp' : ConfigureResponse.t) (h : Host.t) :
  (deviceFlow p u data resp h).1 = inl resp' ->
  ConfigureResponse.ResourceData resp' = ConfigureResponse.ResourceData resp
  /\ ConfigureResponse.DataSourceData resp' = ConfigureResponse.DataSourceData resp.
Proof.
  unfold deviceFlow.
  repeat case_match; simpl; intros [= <-]; done.
Qed.

(** X20. [Configure] either ends with an error and hands over no client
    (what the response held for resources and data sources is left as it
    was), or ends without one and hands the same client to both. *)
Theorem Configure_all_or_nothing (p : StartrailProvider.t) (req : ProviderDecoded.t)
    (resp : ConfigureResponse.t) (h : Host.t) :
  let result := (Configure p req resp h).1 in
  if diag.HasError (ConfigureResponse.Diagnostics result)
  then ConfigureResponse.ResourceData result = ConfigureResponse.ResourceData resp
       /\ ConfigureResponse.DataSourceData result = ConfigureResponse.DataSourceData resp
  else exists c,
         ConfigureResponse.ResourceData result = Some c
         /\ ConfigureResponse.DataSourceData result = Some c.
Proof.
  intros result.
  destruct (diag.HasError (ConfigureResponse.Diagnostics result)) eqn:Hres.
  2:{ destruct (Configure_client p req resp h Hres) as (c & Hr & Hd & _). by exists c. }
  subst result. revert Hres. unfold Configure.
  match goal with
  | |- context [if diag.HasError ?ds then (_, h) else _] =>
      destruct (diag.HasError ds) eqn:Hdec
  end.
  { done. }
  destruct (Host.url_Parse h _) as [u|e]; [|done].
  match goal with
  | |- context [if ?c then deviceFlow ?p' ?u' ?d' ?r' ?h0 else ?other] =>
      destruct (if c then deviceFlow p' u' d' r' h0 else other)
        as [[failed|token] h'] eqn:Hauth
  end.
  - intros _. cbn [fst].
    assert (Hdev : exists h0, (deviceFlow p u (ProviderDecoded.data req)
                     (ConfigureResponse.mk
                        (diag.Append (ConfigureResponse.Diagnostics resp)
                           (ProviderDecoded.diags req))
                        (ConfigureResponse.DataSourceData resp)
                        (ConfigureResponse.ResourceData resp)) h0).1 = inl failed).
    { repeat case_match; try discriminate. exists h. by rewrite Hauth. }
    destruct Hdev as [h0 Hdev]. by apply deviceFlow_keeps_client in Hdev.
  - simpl. intros Hres. simpl in Hdec. congruence.
Qed.

(** X21. The value of the [api_key] attribute is never used as a
    credential: two configurations that differ only in a non-null
    [api_key] are configured alike, with the same effects outside the
    process, whatever the environment holds. *)
Theorem Configure_ignores_api_key_value (p : StartrailProvider.t)
    (endpoint : types.String) (apiKey1 apiKey2 : types.String) (debug : types.Bool)
    (environment tenant : types.String) (decodeDiags : list diag.Diagnostic)
    (resp : ConfigureResponse.t) (h : Host.t) :
  apiKey1 <> types.StringNull ->
  apiKey2 <> types.StringNull ->
  Configure p
    (ProviderDecoded.mk (StartrailProviderModel.mk endpoint apiKey1 debug environment tenant)
       decodeDiags) resp h
  = Configure p
      (ProviderDecoded.mk (StartrailProviderModel.mk endpoint apiKey2 debug environment tenant)
         decodeDiags) resp h.
Proof.
  intros H1 H2. unfold Configure.
  cbn [ProviderDecoded.data ProviderDecoded.diags StartrailProviderModel.Endpoint
       StartrailProviderModel.ApiKey StartrailProviderModel.Debug
       StartrailProviderModel.Environment StartrailProviderModel.Tenant].
  destruct (diag.HasError _); [done|].
  destruct (Host.url_Parse h _) as [u|e]; [|done].
  assert (Hn1 : types.String_IsNull apiKey1 = false) by by destruct apiKey1.
  assert (Hn2 : types.String_IsNull apiKey2 = false) by by destruct apiKey2.
  rewrite Hn1, Hn2.
  destruct (Host.Getenv h "STARTRAIL_TOKEN" =? "")%string;
    destruct (Host.Getenv h "STARTRAIL_API_KEY" =? "")%string; done.
Qed.

Lemma Configure_ignores_api_key_value_witness :
  let p := StartrailProvider.mk "dev" in
  let h := Host.mk (fun _ => "") Ok
             (fun _ => WellKnownExecution.mk (DeviceAuth.mk false "" "" "" "" []) 200 None)
             (fun _ _ => Err "no token endpoint") ∅ [] in
  let model apiKey :=
    StartrailProviderModel.mk (types.StringValue "http://localhost:8000") apiKey
      (types.BoolValue false) types.StringNull types.StringNull in
  Configure p (ProviderDecoded.mk (model (types.StringValue "secret")) [])
    (ConfigureResponse.mk [] None None) h
  = Configure p (ProviderDecoded.mk (model (types.StringValue "")) [])
      (ConfigureResponse.mk [] None None) h.
Proof.
  intros p h model.
  apply (Configure_ignores_api_key_value p); discriminate.
Defined.

(** X22. With a non-null [api_key] attribute and a credential in the
    environment, [Configure] succeeds without touching anything outside the
    process: the client's authorization is "Bearer " and STARTRAIL_TOKEN
    when that is set, and "apiKey " and STARTRAIL_API_KEY otherwise; its
    server is the parsed endpoint and its user agent names the provider's
    version. *)
Theorem Configure_environment_credentials (p : StartrailProvider.t) (req : ProviderDecoded.t)
    (resp : ConfigureResponse.t) (h : Host.t) (u : string) :
  let data := ProviderDecoded.data req in
  let token := Host.Getenv h "STARTRAIL_TOKEN" in
  let apiKey := Host.Getenv h "STARTRAIL_API_KEY" in
  diag.HasError (diag.Append (ConfigureResponse.Diagnostics resp) (ProviderDecoded.diags req))
  = false ->
  Host.url_Parse h (types.ValueString (StartrailProviderModel.Endpoint data)) = Ok u ->
  StartrailProviderModel.ApiKey data <> types.StringNull ->
  token <> "" \/ apiKey <> "" ->
  (Configure p req resp h).2 = h
  /\ exists c,
       ConfigureResponse.ResourceData (Configure p req resp h).1 = Some c
       /\ StartrailProviderClient.Client c
          = {| APIClient.ServerURL := u;
               APIClient.UserAgent :=
                 "startrail-terraform-provider/" +:+ StartrailProvider.version p;
               APIClient.Authorization :=
                 if (token =? "")%string then "apiKey " +:+ apiKey else "Bearer " +:+ token;
               APIClient.Debug := types.ValueBool (StartrailProviderModel.Debug data) |}.
Proof.
  intros data token apiKey Hdec Hurl Hkey Hcred. unfold Configure. fold data. simpl.
  rewrite Hdec, Hurl. fold token apiKey.
  assert (Hn : types.String_IsNull (StartrailProviderModel.ApiKey data) = false)
    by by destruct (StartrailProviderModel.ApiKey data).
  rewrite Hn.
  destruct (String.eqb_spec token "") as [Ht|Ht];
    destruct (String.eqb_spec apiKey "") as [Ha|Ha]; simpl.
  - by destruct Hcred.
  - split; [done|]. by eexists.
  - split; [done|]. by eexists.
  - split; [done|]. by eexists.
Qed.

Lemma Configure_environment_credentials_witness :
  let p := StartrailProvider.mk "dev" in
  let model := StartrailProviderModel.mk (types.StringValue "http://localhost:8000")
                 (types.StringValue "unused") (types.BoolValue false)
                 types.StringNull types.StringNull in
  let h := Host.mk (fun name => if (name =? "STARTRAIL_API_KEY")%string then "k" else "")
             Ok
             (fun _ => WellKnownExecution.mk (DeviceAuth.mk false "" "" "" "" []) 200 None)
             (fun _ _ => Err "no token endpoint") ∅ [] in
  exists c,
    ConfigureResponse.ResourceData
      (Configure p (ProviderDecoded.mk model []) (ConfigureResponse.mk [] None None) h).1
    = Some c
    /\ APIClient.Authorization (StartrailProviderClient.Client c) = "apiKey k".
Proof.
  intros p model h.
  destruct (Configure_environment_credentials p (ProviderDecoded.mk model [])
              (ConfigureResponse.mk [] None None) h "http://localhost:8000")
    as (_ & c & Hc & Hclient).
  - reflexivity.
  - reflexivity.
  - discriminate.
  - right. discriminate.
  - exists c. split; [exact Hc|]. by rewrite Hclient.
Defined.

(** Once the configuration is decoded and the endpoint parsed, and both
    environment variables are empty or the [api_key] attribute is null,
    [Configure] is the device flow followed by building the client. *)
Lemma Configure_via_deviceFlow (p : StartrailProvider.t) (req : ProviderDecoded.t)
    (resp : ConfigureResponse.t) (h : Host.t) (u : string) :
  let data := ProviderDecoded.data req in
  let decoded :=
    ConfigureResponse.mk
      (diag.Append (ConfigureResponse.Diagnostics resp) (ProviderDecoded.diags req))
      (ConfigureResponse.DataSourceData resp) (ConfigureResponse.ResourceData resp) in
  diag.HasError (ConfigureResponse.Diagnostics decoded) = false ->
  Host.url_Parse h (types.ValueString (StartrailProviderModel.Endpoint data)) = Ok u ->
  (Host.Getenv h "STARTRAIL_TOKEN" = "" /\ Host.Getenv h "STARTRAIL_API_KEY" = ""
   \/ StartrailProviderModel.ApiKey data = types.StringNull) ->
  Configure p req resp h
  = match deviceFlow p u data decoded h with
    | (inl failed, h') => (failed, h')
    | (inr token, h') =>
        let tenant := types.ValueString (StartrailProviderModel.Tenant data) in
        let c :=
          {| StartrailProviderClient.Client :=
               newClient u (StartrailProvider.version p) token
                 (types.ValueBool (StartrailProviderModel.Debug data));
             StartrailProviderClient.Tenant :=
               if (tenant =? "")%string then "default" else tenant;
             StartrailProviderClient.Environment :=
               types.ValueString (StartrailProviderModel.Environment data) |} in
        (ConfigureResponse.mk (ConfigureResponse.Diagnostics decoded) (Some c) (Some c), h')
    end.
Proof.
  intros data decoded Hdec Hurl Hguard. unfold Configure. fold data. fold decoded.
  rewrite Hdec, Hurl.
  assert (Hc : (Host.Getenv h "STARTRAIL_TOKEN" =? "")%string
               && (Host.Getenv h "STARTRAIL_API_KEY" =? "")%string
               || types.String_IsNull (StartrailProviderModel.ApiKey data) = true).
  { destruct Hguard as [[-> ->]| ->]; [done|]. simpl. apply orb_true_r. }
  by rewrite Hc.
Qed.

(** X23. In the device flow, when the well-known endpoint cannot be used
    (the call fails, the status code is not 200, or the device flow is
    disabled for the tenant), [Configure] ends with an error and no client,
    having asked the well-known endpoint and done nothing else: the
    keyring is neither read nor written. *)
Theorem Configure_well_known_unusable (p : StartrailProvider.t) (req : ProviderDecoded.t)
    (resp : ConfigureResponse.t) (h : Host.t) (u : string) :
  let data := ProviderDecoded.data req in
  let anonymous := newClient u (StartrailProvider.version p) ""
                     (types.ValueBool (StartrailProviderModel.Debug data)) in
  let exec := Host.WellKnownAuth h anonymous in
  diag.HasError (diag.Append (ConfigureResponse.Diagnostics resp) (ProviderDecoded.diags req))
  = false ->
  Host.url_Parse h (types.ValueString (StartrailProviderModel.Endpoint data)) = Ok u ->
  (Host.Getenv h "STARTRAIL_TOKEN" = "" /\ Host.Getenv h "STARTRAIL_API_KEY" = ""
   \/ StartrailProviderModel.ApiKey data = types.StringNull) ->
  (WellKnownExecution.err exec <> None
   \/ WellKnownExecution.StatusCode exec <> 200
   \/ DeviceAuth.Enabled (WellKnownExecution.Device exec) = false) ->
  diag.HasError (ConfigureResponse.Diagnostics (Configure p req resp h).1) = true
  /\ ConfigureResponse.ResourceData (Configure p req resp h).1
     = ConfigureResponse.ResourceData resp
  /\ Host.events (Configure p req resp h).2 = Host.events h ++ [EvWellKnownAuth anonymous]
  /\ Host.keyring (Configure p req resp h).2 = Host.keyring h.
Proof.
  intros data anonymous exec Hdec Hurl Hguard Hbad.
  rewrite (Configure_via_deviceFlow p req resp h u Hdec Hurl Hguard).
  fold data. unfold deviceFlow. fold anonymous. fold exec.
  destruct (WellKnownExecution.err exec) as [e|].
  { simpl. by rewrite HasError_AddError. }
  destruct (WellKnownExecution.StatusCode exec =? 200) eqn:Hstatus; cbn [negb].
  2:{ simpl. by rewrite HasError_AddError. }
  destruct (DeviceAuth.Enabled (WellKnownExecution.Device exec)) eqn:Hen; cbn [negb].
  2:{ simpl. by rewrite HasError_AddError. }
  apply Z.eqb_eq in Hstatus. by destruct Hbad as [?|[?|?]].
Qed.

(** X24. In the device flow, when the keyring holds no refresh token,
    [Configure] ends with an error and no client; it has asked the
    well-known endpoint and the keyring, never the token endpoint, and the
    keyring is as it was. *)
Theorem Configure_missing_refresh_token (p : StartrailProvider.t) (req : ProviderDecoded.t)
    (resp : ConfigureResponse.t) (h : Host.t) (u : string) :
  let data := ProviderDecoded.data req in
  let anonymous := newClient u (StartrailProvider.version p) ""
                     (types.ValueBool (StartrailProviderModel.Debug data)) in
  let exec := Host.WellKnownAuth h anonymous in
  diag.HasError (diag.Append (ConfigureResponse.Diagnostics resp) (ProviderDecoded.diags req))
  = false ->
  Host.url_Parse h (types.ValueString (StartrailProviderModel.Endpoint data)) = Ok u ->
  (Host.Getenv h "STARTRAIL_TOKEN" = "" /\ Host.Getenv h "STARTRAIL_API_KEY" = ""
   \/ StartrailProviderModel.ApiKey data = types.StringNull) ->
  WellKnownExecution.err exec = None ->
  WellKnownExecution.StatusCode exec = 200 ->
  DeviceAuth.Enabled (WellKnownExecution.Device exec) = true ->
  Host.keyring h !! ("startrail", "refresh_token") = None ->
  diag.HasError (ConfigureResponse.Diagnostics (Configure p req resp h).1) = true
  /\ ConfigureResponse.ResourceData (Configure p req resp h).1
     = ConfigureResponse.ResourceData resp
  /\ Host.events (Configure p req resp h).2
     = Host.events h ++ [EvWellKnownAuth anonymous; EvKeyringGet "startrail" "refresh_token"]
  /\ Host.keyring (Configure p req resp h).2 = Host.keyring h.
Proof.
  intros data anonymous exec Hdec Hurl Hguard Herr Hstatus Hen Hmissing.
  rewrite (Configure_via_deviceFlow p req resp h u Hdec Hurl Hguard).
  fold data. unfold deviceFlow, Host.keyring_Get. fold anonymous. fold exec.
  rewrite Herr, Hstatus, Hen. cbn [Z.eqb Pos.eqb negb Host.log Host.keyring].
  rewrite Hmissing. simpl. rewrite HasError_AddError, <- app_assoc. done.
Qed.


Lemma deviceFlow_keyring_elsewhere (p : StartrailProvider.t) (u : string)
    (data : StartrailProviderModel.t) (resp : ConfigureResponse.t) (h : Host.t)
    (entry : string * string) :
  entry <> ("startrail", "refresh_token") ->
  Host.keyring (deviceFlow p u data resp h).2 !! entry = Host.keyring h !! entry.
Proof.
  intros Hne. unfold deviceFlow, Host.keyring_Get, Host.keyring_Set, Host.log.
  repeat case_match; simplify_eq; simpl; try done.
  by rewrite lookup_insert_ne.
Qed.

(** X26. Whatever happens, [Configure] leaves every keyring entry other
    than the provider's own refresh token as it was. *)
Theorem Configure_keyring_elsewhere (p : StartrailProvider.t) (req : ProviderDecoded.t)
    (resp : ConfigureResponse.t) (h : Host.t) (entry : string * string) :
  entry <> ("startrail", "refresh_token") ->
  Host.keyring (Configure p req resp h).2 !! entry = Host.keyring h !! entry.
Proof.
  intros Hne. unfold Configure.
  match goal with
  | |- context [if diag.HasError ?ds then (_, h) else _] =>
      destruct (diag.HasError ds)
  end; [done|].
  destruct (Host.url_Parse h _) as [u|e]; [|done].
  match goal with
  | |- context [if ?c then deviceFlow ?p' ?u' ?d' ?r' ?h0 else ?other] =>
      destruct c;
      [pose proof (deviceFlow_keyring_elsewhere p' u' d' r' h0 entry Hne) as Hdev;
       destruct (deviceFlow p' u' d' r' h0) as [[failed|token] h']; exact Hdev|]
  end.
  repeat case_match; simplify_eq; done.
Qed.

Lemma Configure_well_known_unusable_witness :
  let p := StartrailProvider.mk "dev" in
  let model := StartrailProviderModel.mk (types.StringValue "http://localhost:8000")
                 (types.StringValue "secret") (types.BoolValue false)
                 types.StringNull types.StringNull in
  let h := Host.mk (fun _ => "") Ok
             (fun _ => WellKnownExecution.mk (DeviceAuth.mk true "id" "a" "d" "t" []) 503 None)
             (fun _ _ => Err "no token endpoint")
             {[("startrail", "refresh_token") := "old"]} [] in
  let result := Configure p (ProviderDecoded.mk model []) (ConfigureResponse.mk [] None None) h in
  diag.HasError (ConfigureResponse.Diagnostics result.1) = true
  /\ ConfigureResponse.ResourceData result.1 = None
  /\ Host.events result.2 = [EvWellKnownAuth (newClient "http://localhost:8000" "dev" "" false)]
  /\ Host.keyring result.2 = {[("startrail", "refresh_token") := "old"]}.
Proof.
  intros p model h result.
  apply (Configure_well_known_unusable p (ProviderDecoded.mk model [])
           (ConfigureResponse.mk [] None None) h "http://localhost:8000").
  - reflexivity.
  - reflexivity.
  - left. split; reflexivity.
  - right. left. discriminate.
Defined.

Lemma Configure_missing_refresh_token_witness :
  let p := StartrailProvider.mk "dev" in
  let model := StartrailProviderModel.mk (types.StringValue "http://localhost:8000")
                 types.StringNull (types.BoolValue false)
                 types.StringNull types.StringNull in
  let h := Host.mk (fun _ => "") Ok
             (fun _ => WellKnownExecution.mk (DeviceAuth.mk true "id" "a" "d" "t" []) 200 None)
             (fun _ _ => Ok (oauth2.Token.mk "access" "next")) ∅ [] in
  let result := Configure p (ProviderDecoded.mk model []) (ConfigureResponse.mk [] None None) h in
  diag.HasError (ConfigureResponse.Diagnostics result.1) = true
  /\ ConfigureResponse.ResourceData result.1 = None
  /\ Host.events result.2
     = [EvWellKnownAuth (newClient "http://localhost:8000" "dev" "" false);
        EvKeyringGet "startrail" "refresh_token"]
  /\ Host.keyring result.2 = ∅.
Proof.
  intros p model h result.
  apply (Configure_missing_refresh_token p (ProviderDecoded.mk model [])
           (ConfigureResponse.mk [] None None) h "http://localhost:8000").
  - reflexivity.
  - reflexivity.
  - right. reflexivity.
  - reflexivity.
  - reflexivity.
  - reflexivity.
  - reflexivity.
Defined.


Lemma Configure_keyring_elsewhere_witness :
  let p := StartrailProvider.mk "dev" in
  let model := StartrailProviderModel.mk (types.StringValue "http://localhost:8000")
                 types.StringNull (types.BoolValue false)
                 types.StringNull types.StringNull in
  let h := Host.mk (fun _ => "") Ok
             (fun _ => WellKnownExecution.mk (DeviceAuth.mk true "id" "a" "d" "t" []) 200 None)
             (fun _ _ => Ok (oauth2.Token.mk "access" "next"))
             {[("startrail", "refresh_token") := "old"; ("mail", "password") := "hunter2"]} [] in
  Host.keyring
    (Configure p (ProviderDecoded.mk model []) (ConfigureResponse.mk [] None None) h).2
    !! ("mail", "password")
  = Some "hunter2".
Proof.
  intros p model h.
  rewrite (Configure_keyring_elsewhere p (ProviderDecoded.mk model [])
             (ConfigureResponse.mk [] None None) h ("mail", "password")).
  - reflexivity.
  - discriminate.
Defined.
